(** * n8n storytelling MCP server: status mapping, request shaping, insights

    A shallow embedding of
      - [src/mcp-server/src/types/storytelling.ts]   (the data model),
      - [src/mcp-server/src/tools/n8n-client.ts]     (class [N8NClient]),
      - [src/mcp-server/src/tools/storytelling-tools.ts] (class
        [StorytellingTools]),
    followed by the properties of the specification that concern them.

    Conventions of the embedding.
      - A JavaScript [number] is an IEEE-754 binary64 value: [spec_float]
        with the operations of [SpecFloat] at precision 53.
      - [null] and [undefined] are both [None] wherever the code cannot
        tell them apart (a read through [?.], a truthiness test, [||],
        [!== false]); an optional or nullable field is then an [option].
        Where the code does tell them apart (a destructuring default,
        the text of the [TypeError] a property read raises) the field
        is a [JS.maybe], which keeps which of the two it holds.
      - Truthiness is written out: the empty string is falsy.
      - A thrown exception is the left summand of a sum; [try]/[catch]
        is a [match] on it.
      - The HTTP engine behind axios is a record of transition functions
        on an abstract state of the remote side. *)

From Stdlib Require Import ZArith QArith Qpower Qminmax String Ascii List Bool Lia Lqa.
From Stdlib Require Import SpecFloat DecimalString.
From stdpp Require Import base option list strings gmap.

Local Open Scope Z_scope.

(* ===================================================================== *)
(** * The JavaScript fragment the sources rely on *)
(* ===================================================================== *)

Module JS.

(** ** Numbers *)

Definition prec : Z := 53.
Definition emax : Z := 1024.

Definition number : Type := spec_float.

(** An integer literal, or an integer produced by the runtime (an array
    length), as the nearest double. *)
Definition num_of_Z (z : Z) : number := binary_normalize prec emax z 0 false.
Definition num_of_nat (n : nat) : number := num_of_Z (Z.of_nat n).

Definition num_div (x y : number) : number := SFdiv prec emax x y.
Definition num_mul (x y : number) : number := SFmul prec emax x y.

(** [x < y], [x <= y] and [x > y] on doubles; all are false on NaN. *)
Definition num_ltb (x y : number) : bool := SFltb x y.
Definition num_leb (x y : number) : bool := SFleb x y.
Definition num_gtb (x y : number) : bool := SFltb y x.

(** [Math.min(x, y)]: NaN if either is NaN, and [-0] is below [+0]. *)
Definition Math_min (x y : number) : number :=
  match SFcompare x y with
  | None => S754_nan
  | Some Lt => x
  | Some Gt => y
  | Some Eq => match x with S754_zero true => x | _ => y end
  end.

(** The rational a finite double stands for. *)
Definition num_to_Q (x : number) : option Q :=
  match x with
  | S754_zero _ => Some 0%Q
  | S754_finite s m e =>
      let v := (inject_Z (Z.pos m) * Qpower 2 e)%Q in
      Some (if s then Qopp v else v)
  | S754_infinity _ | S754_nan => None
  end.

(** [String(n)] for a non-negative integer [n]. *)
Definition string_of_nat (n : nat) : string :=
  NilZero.string_of_uint (Nat.to_uint n).

(** ** Truthiness and [||] *)

(** [if (s)] for [s : string]. *)
Definition truthy_string (s : string) : bool :=
  match s with EmptyString => false | String _ _ => true end.

(** [if (x)] for [x : string | null | undefined]. *)
Definition truthy (x : option string) : bool :=
  match x with Some s => truthy_string s | None => false end.

(** [x || d] for [x : string | undefined]. *)
Definition or_string (x : option string) (d : string) : string :=
  match x with
  | Some s => if truthy_string s then s else d
  | None => d
  end.

(** [x?.f]: the field [f] of [x], [undefined] when [x] is. *)
Definition chain {A B : Type} (x : option A) (f : A -> option B) : option B :=
  match x with Some a => f a | None => None end.

(** [n || 0] for a length [n]: zero is the only falsy length. *)
Definition or_zero (n : option nat) : nat :=
  match n with Some k => k | None => 0%nat end.

(** ** [null] and [undefined], where the code tells them apart *)

Inductive nothing := undefined | null.

(** A value that is there, or one of the two that are not. *)
Inductive maybe (A : Type) :=
| present (a : A)
| absent (n : nothing).
Arguments present {A} _.
Arguments absent {A} _.

(** [const { x = d } = o]: the default stands in for a missing or
    [undefined] property, not for [null]. *)
Definition default_of {A : Type} (x : maybe A) (d : A) : maybe A :=
  match x with
  | absent undefined => present d
  | _ => x
  end.

(** [`${n}`]. *)
Definition nothing_name (n : nothing) : string :=
  match n with undefined => "undefined" | null => "null" end.

(** ** Errors *)

Record Error := { name : string; message : string }.

(** [new Error(msg)], and the [TypeError] a read of the property [prop]
    raises on [null] or [undefined], in the wording of V8, the engine of
    Node.js. *)
Definition new_Error (msg : string) : Error :=
  {| name := "Error"; message := msg |}.
Definition TypeError_reading (n : nothing) (prop : string) : Error :=
  {| name := "TypeError";
     message := "Cannot read properties of " +:+ nothing_name n
                  +:+ " (reading '" +:+ prop +:+ "')" |}.

(** [`${error}`]: [Error.prototype.toString]. *)
Definition toString (e : Error) : string :=
  match name e, message e with
  | EmptyString, msg => msg
  | nm, EmptyString => nm
  | nm, msg => nm +:+ ": " +:+ msg
  end.

(** A computation that may throw. *)
Definition throws (A : Type) : Type := Error + A.

(** ** Strings *)

(** [s.split(sep)] for a one-character separator; never empty. *)
Fixpoint split (sep : ascii) (s : string) : list string :=
  match s with
  | EmptyString => [EmptyString]
  | String c s' =>
      if Ascii.eqb c sep then EmptyString :: split sep s'
      else match split sep s' with
           | h :: t => String c h :: t
           | [] => [String c EmptyString]
           end
  end.

(** [a.pop()] as an expression: the last element, [undefined] if none. *)
Definition pop (a : list string) : option string := last a.

(** [s.toLowerCase()] on the ASCII letters; other bytes are kept. *)
Definition lower_ascii (c : ascii) : ascii :=
  let n := nat_of_ascii c in
  if ((65 <=? n) && (n <=? 90))%nat then ascii_of_nat (n + 32) else c.

Fixpoint toLowerCase (s : string) : string :=
  match s with
  | EmptyString => EmptyString
  | String c s' => String (lower_ascii c) (toLowerCase s')
  end.

(** [s.includes(needle)]. *)
Fixpoint includes (s needle : string) : bool :=
  String.prefix needle s ||
  match s with
  | EmptyString => false
  | String _ s' => includes s' needle
  end.

(** ** Object literals used as lookup tables

    A literal [{k1: v1, ...}] inherits from [Object.prototype], so the
    read [o[k]] of a key that is not an own property falls through to
    the members below when [k] is one of their names; these are
    functions (or, for [__proto__], the prototype object), all truthy. *)

Definition Object_prototype : list string :=
  [ "constructor"; "hasOwnProperty"; "isPrototypeOf";
    "propertyIsEnumerable"; "toLocaleString"; "toString"; "valueOf";
    "__defineGetter__"; "__defineSetter__"; "__lookupGetter__";
    "__lookupSetter__"; "__proto__" ]%string.

(** What a read of a string-valued table can produce. *)
Inductive value :=
| VString (s : string)
| VInherited (member : string).

Definition own_property (o : list (string * string)) (k : string) : option string :=
  snd <$> List.find (fun kv => String.eqb (fst kv) k) o.

(** [o[k]]. *)
Definition get (o : list (string * string)) (k : string) : option value :=
  match own_property o k with
  | Some v => Some (VString v)
  | None =>
      if existsb (String.eqb k) Object_prototype
      then Some (VInherited k) else None
  end.

(** [v || d] for the result [v] of such a read. *)
Definition or_value (v : option value) (d : string) : value :=
  match v with
  | Some (VString s) => VString (if truthy_string s then s else d)
  | Some (VInherited k) => VInherited k
  | None => VString d
  end.

(** The key a possibly-undefined string denotes in [o[k]], and what
    [`${k}`] prints. *)
Definition property_key (k : option string) : string :=
  match k with Some s => s | None => "undefined" end.
Definition interpolate (k : option string) : string := property_key k.

End JS.

(* ===================================================================== *)
(** * types/storytelling.ts *)
(* ===================================================================== *)

Module Types.

(** Field names are the source's; where two interfaces share a name the
    record's own name is put in front ([person_name], [theme_name],
    [status_error], ...). *)

Record StoryTheme := {
  theme_name : string;
  description : option string;
  priority : string            (* 'high' | 'medium' | 'low' *)
}.

Record MediaFile := {
  filename : string;
  filepath : string;
  size : JS.number;
  mimeType : JS.value;         (* declared [string]; see [JS.get] *)
  duration : option JS.number
}.

Record OutputOptions := {
  createSpreadsheet : bool;
  createSummary : bool;
  createVideoClips : bool;
  language : option string
}.

Record StoryAnalysisRequest := {
  files : list MediaFile;
  themes : list StoryTheme;
  outputOptions : OutputOptions
}.

Record Soundbite := {
  text : string;
  startTime : JS.number;
  endTime : JS.number;
  speaker : option string;
  emotionalImpact : JS.number;
  pCategory : string;          (* 'people' | 'places' | 'purpose' | 'plot' *)
  theme : string
}.

Record Person := { person_name : string; role : string; person_significance : string }.
Record Place := { location : string; context : string; importance : string }.
Record Purpose := { motivation : string; goal : string; purpose_transformation : string }.
Record PlotEvent := { event : string; timestamp : JS.number; plot_significance : string }.

(** The interface declares every array; the tools read each through
    [?.], so an analysis that lacks one is admitted here. *)
Record StoryAnalysis := {
  people : option (list Person);
  places : option (list Place);
  purpose : option (list Purpose);
  plot : option (list PlotEvent);
  soundbites : option (list Soundbite);
  overallNarrative : option string
}.

Record StoryDeliverables := {
  spreadsheetUrl : option string;
  summaryDocUrl : option string;
  videoClipsUrls : option (list string);
  finalSequenceUrl : option string
}.

Inductive Status := pending | processing | completed | failed.

(** What the engine reports under [data.resultData]: [runData] is kept
    as its own keys, the node names, in the order [Object.keys]
    enumerates them (its values are never read); [error_message] is
    [error?.message]. *)
Record ResultData := {
  runData : option (list string);
  error_message : option string
}.

(** [execution.data], which [getExecutionStatus] hands on as [results].
    The tools read fields of [analysis] without [?.]: whether a missing
    one is [null] or [undefined] shows in the error they answer with. *)
Record ExecutionData := {
  resultData : option ResultData;
  analysis : JS.maybe StoryAnalysis;
  deliverables : option StoryDeliverables
}.

(** The record [GET /api/v1/executions/{id}] answers with. *)
Record Execution := {
  finished : bool;
  stoppedAt : option string;   (* string | null *)
  data : option ExecutionData
}.

Record ProcessingStatus := {
  jobId : string;
  status : Status;
  progress : JS.number;
  currentStep : JS.value;      (* declared [string]; see [JS.get] *)
  results : option ExecutionData;
  status_error : option string
}.

End Types.

(* ===================================================================== *)
(** * tools/n8n-client.ts *)
(* ===================================================================== *)

Module N8NClient.
Import Types.

(** An uploaded file as multer presents it. *)
Record MulterFile := {
  originalname : string;
  buffer : list Byte.byte;
  mimetype : string;
  multer_size : nat
}.

(** The engine behind axios.  [Remote] is the state of the remote side;
    a request either throws or answers with the body the client reads. *)
Record Http (Remote : Type) := {
  post_upload_file : Remote -> MulterFile -> Remote * JS.throws string;
  post_storytelling_analysis :
    Remote -> StoryAnalysisRequest -> Remote * JS.throws string;
  get_execution : Remote -> string -> Remote * JS.throws Execution;
  get_executions : Remote -> Remote * JS.throws (list (string * Execution))
}.
Arguments post_upload_file {Remote} _ _ _.
Arguments post_storytelling_analysis {Remote} _ _ _.
Arguments get_execution {Remote} _ _ _.
Arguments get_executions {Remote} _ _.

Section Client.
Context {Remote : Type} (http : Http Remote).

(** The body of the [for] loop and the loop itself; [uploadedPaths]
    is the accumulator the source pushes onto. *)
Fixpoint uploadFiles_from (uploadedPaths : list string)
    (files : list MulterFile) (w : Remote) : Remote * JS.throws (list string) :=
  match files with
  | [] => (w, inr uploadedPaths)
  | file :: rest =>
      match post_upload_file http w file with
      | (w', inr filepath) => uploadFiles_from (uploadedPaths ++ [filepath]) rest w'
      | (w', inl error) =>
          (w', inl (JS.new_Error
             ("Failed to upload file " +:+ originalname file +:+ ": "
                +:+ JS.toString error)))
      end
  end.

Definition uploadFiles (files : list MulterFile) (w : Remote)
  : Remote * JS.throws (list string) :=
  uploadFiles_from [] files w.

Definition startStorytellingWorkflow (request : StoryAnalysisRequest) (w : Remote)
  : Remote * JS.throws string :=
  match post_storytelling_analysis http w request with
  | (w', inr executionId) => (w', inr executionId)
  | (w', inl error) =>
      (w', inl (JS.new_Error
         ("Failed to start storytelling workflow: " +:+ JS.toString error)))
  end.

Definition mapN8NStatus (finished : bool) (stoppedAt : option string) : Status :=
  if JS.truthy stoppedAt then failed
  else if finished then completed
  else processing.

(** [execution.data?.resultData?.runData]. *)
Definition runData_of (execution : Execution) : option (list string) :=
  JS.chain (JS.chain (data execution) resultData) runData.

Definition calculateProgress (execution : Execution) : JS.number :=
  match runData_of execution with
  | None => JS.num_of_Z 0
  | Some keys =>
      let totalNodes := JS.num_of_nat (length keys) in
      let expectedNodes := JS.num_of_Z 10 in
      JS.Math_min
        (JS.num_mul (JS.num_div totalNodes expectedNodes) (JS.num_of_Z 100))
        (JS.num_of_Z 100)
  end.

Definition stepMap : list (string * string) :=
  [ ("Upload Interviews Webhook", "Processing uploads...");
    ("Process Input Files", "Analyzing files...");
    ("Transcribe with Whisper", "Transcribing audio...");
    ("4P Story Analysis", "Analyzing story structure...");
    ("Update Google Spreadsheet", "Creating spreadsheet...");
    ("Create Story Summary Doc", "Writing summary...");
    ("Extract Soundbite Clips", "Extracting clips...");
    ("Create Final Story Video", "Creating final video...") ]%string.

Definition getCurrentStep (execution : Execution) : JS.value :=
  match runData_of execution with
  | None => JS.VString "Starting..."
  | Some completedNodes =>
      let lastNode := last completedNodes in
      JS.or_value (JS.get stepMap (JS.property_key lastNode)) "Processing..."
  end.

(** The object literal [getExecutionStatus] returns. *)
Definition statusOf (executionId : string) (execution : Execution) : ProcessingStatus :=
  {| jobId := executionId;
     status := mapN8NStatus (finished execution) (stoppedAt execution);
     progress := calculateProgress execution;
     currentStep := getCurrentStep execution;
     results :=
       if finished execution && negb (JS.truthy (stoppedAt execution))
       then data execution else None;
     status_error :=
       if JS.truthy (stoppedAt execution)
       then JS.chain (JS.chain (data execution) resultData) error_message
       else None |}.

Definition getExecutionStatus (executionId : string) (w : Remote)
  : Remote * JS.throws ProcessingStatus :=
  match get_execution http w executionId with
  | (w', inr execution) => (w', inr (statusOf executionId execution))
  | (w', inl error) =>
      (w', inl (JS.new_Error
         ("Failed to get execution status: " +:+ JS.toString error)))
  end.

Definition listActiveExecutions (w : Remote)
  : Remote * JS.throws (list ProcessingStatus) :=
  match get_executions http w with
  | (w', inr executions) =>
      (w', inr (map (fun '(id, execution) =>
                  {| jobId := id;
                     status := processing;
                     progress := calculateProgress execution;
                     currentStep := getCurrentStep execution;
                     results := None;
                     status_error := None |}) executions))
  | (w', inl error) =>
      (w', inl (JS.new_Error
         ("Failed to list executions: " +:+ JS.toString error)))
  end.

End Client.
End N8NClient.

(* ===================================================================== *)
(** * tools/storytelling-tools.ts *)
(* ===================================================================== *)

Module StorytellingTools.
Import Types.

(** The arguments of the tools, shaped as their [inputSchema]s. *)
Module Args.
Record Theme := {
  name : string;
  description : option string;
  priority : option string
}.
Record OutputOptions := {
  createSpreadsheet : option bool;
  createSummary : option bool;
  createVideoClips : option bool;
  language : option string
}.
(** [outputOptions] meets a destructuring default, which tells a
    missing property from [null]. *)
Record StartAnalysis := {
  themes : list Theme;
  outputOptions : JS.maybe OutputOptions;
  fileUrls : list string
}.
Record File := { filename : string; content : string; mimeType : string }.
Record GetInsights := { jobId : string; insightType : option string }.
End Args.

(** The uniform envelope: [{success: true, ...}] or
    [{success: false, error}]. *)
Inductive envelope (A : Type) :=
| success (payload : A)
| failure (error : string).
Arguments success {A} _.
Arguments failure {A} _.

Record StartAnalysisResult := {
  started_jobId : string;
  started_message : string;
  estimatedDuration : string;
  started_themes : list string;
  fileCount : nat
}.

Record StatusResults := {
  result_analysis : JS.maybe StoryAnalysis;
  result_deliverables : option StoryDeliverables;
  summary : string
}.

(** The two object literals [executeGetStatus] answers with. *)
Inductive StatusReport :=
| WithResults (status : Status) (progress : JS.number) (currentStep : JS.value)
              (results : StatusResults)
| WithError (status : Status) (progress : JS.number) (currentStep : JS.value)
            (error : option string).

(** An entry of [activeJobs], and [totalActive] next to the list. *)
Record ActiveJob := {
  active_jobId : string;
  active_status : Status;
  active_progress : JS.number;
  active_currentStep : JS.value
}.

Record CharacterArc := { character : string; transformation : string }.

Record TransformationInsights := {
  transformationMoments : option (list PlotEvent);
  keyCharacterArcs : option (list CharacterArc);
  emotionalHighpoints : option (list Soundbite)
}.

(** What the [insights] field can hold, one constructor per [case]. *)
Inductive Insights :=
| OfPeople (v : option (list Person))
| OfPlaces (v : option (list Place))
| OfPurpose (v : option (list Purpose))
| OfPlot (v : option (list PlotEvent))
| OfSoundbites (v : option (list Soundbite))
| OfTransformation (v : TransformationInsights)
| OfAnalysis (v : JS.maybe StoryAnalysis).

(** [private jobs: Map<string, ProcessingStatus>]. *)
Record Tools := { jobs : gmap string ProcessingStatus }.

Definition mimeMap : list (string * string) :=
  [ ("mp4", "video/mp4");
    ("avi", "video/avi");
    ("mov", "video/quicktime");
    ("mp3", "audio/mp3");
    ("wav", "audio/wav");
    ("flac", "audio/flac") ]%string.

Definition getMimeTypeFromUrl (url : string) : JS.value :=
  let ext := JS.toLowerCase <$> JS.pop (JS.split "." url) in
  JS.or_value (JS.get mimeMap (JS.or_string ext "")) "application/octet-stream".

(** [x?.length || 0] inside the template. *)
Definition count {A : Type} (x : option (list A)) : string :=
  JS.string_of_nat (JS.or_zero (length <$> x)).

Definition generateResultSummary (analysis : JS.maybe StoryAnalysis) : JS.throws string :=
  match analysis with
  | JS.absent n => inl (JS.TypeError_reading n "soundbites")
  | JS.present analysis =>
      inr ("Analysis completed with " +:+ count (soundbites analysis)
           +:+ " soundbites identified across " +:+ count (people analysis)
           +:+ " key characters. The story explores themes of transformation through "
           +:+ count (purpose analysis)
           +:+ " core purposes across " +:+ count (places analysis)
           +:+ " significant locations.")
  end.

Definition extractTransformationInsights (analysis : JS.maybe StoryAnalysis)
  : JS.throws TransformationInsights :=
  match analysis with
  | JS.absent n => inl (JS.TypeError_reading n "plot")
  | JS.present analysis =>
      inr {| transformationMoments :=
               List.filter (fun p => JS.includes (plot_significance p) "transformation")
                 <$> plot analysis;
             keyCharacterArcs :=
               map (fun person =>
                      {| character := person_name person;
                         transformation := person_significance person |})
                 <$> people analysis;
             emotionalHighpoints :=
               List.filter (fun s => JS.num_gtb (emotionalImpact s) (JS.num_of_Z 7))
                 <$> soundbites analysis |}
  end.

(** The [files] and [request] constants of [executeStartAnalysis]. *)
Definition files_of_urls (fileUrls : list string) : list MediaFile :=
  imap (fun index url =>
          {| filename := "interview_" +:+ JS.string_of_nat (index + 1) +:+ "."
                           +:+ JS.interpolate (JS.pop (JS.split "." url));
             filepath := url;
             size := JS.num_of_Z 0;
             mimeType := getMimeTypeFromUrl url;
             duration := None |}) fileUrls.

(** [x !== false]. *)
Definition not_false (x : option bool) : bool :=
  match x with Some false => false | _ => true end.

(** The object literal [{}]. *)
Definition no_options : Args.OutputOptions :=
  {| Args.createSpreadsheet := None; Args.createSummary := None;
     Args.createVideoClips := None; Args.language := None |}.

(** The [request] constant: the destructuring of [args] with its
    default for [outputOptions], then the object literal, whose fields
    are evaluated in the order written; the first read of a field of
    [outputOptions] throws when that is [null]. *)
Definition request_of (args : Args.StartAnalysis) : JS.throws StoryAnalysisRequest :=
  let outputOptions := JS.default_of (Args.outputOptions args) no_options in
  let files := files_of_urls (Args.fileUrls args) in
  let themes :=
    map (fun theme =>
           {| theme_name := Args.name theme;
              description := Some (JS.or_string (Args.description theme) "");
              priority := JS.or_string (Args.priority theme) "medium" |})
        (Args.themes args) in
  match outputOptions with
  | JS.absent n => inl (JS.TypeError_reading n "createSpreadsheet")
  | JS.present outputOptions =>
      inr {| files := files;
             themes := themes;
             outputOptions :=
               {| createSpreadsheet := not_false (Args.createSpreadsheet outputOptions);
                  createSummary := not_false (Args.createSummary outputOptions);
                  createVideoClips := not_false (Args.createVideoClips outputOptions);
                  language := Some (JS.or_string (Args.language outputOptions) "en") |} |}
  end.

Section Tools.
Context {Remote : Type} (http : N8NClient.Http Remote).
(** [Buffer.from(content, 'base64')], Node's decoder. *)
Context (Buffer_from_base64 : string -> list Byte.byte).

Definition executeStartAnalysis (args : Args.StartAnalysis) (this : Tools) (w : Remote)
  : Tools * Remote * envelope StartAnalysisResult :=
  match request_of args with
  | inr request =>
      match N8NClient.startStorytellingWorkflow http request w with
      | (w', inr executionId) =>
          let status :=
            {| jobId := executionId; status := pending; progress := JS.num_of_Z 0;
               currentStep := JS.VString "Initializing analysis...";
               results := None; status_error := None |} in
          ({| jobs := <[executionId := status]> (jobs this) |}, w',
           success {| started_jobId := executionId;
                      started_message := "Storytelling analysis started successfully";
                      estimatedDuration := "10-30 minutes depending on file sizes";
                      started_themes := map Args.name (Args.themes args);
                      fileCount := length (files request) |})
      | (w', inl error) =>
          (this, w', failure ("Failed to start analysis: " +:+ JS.message error))
      end
  | inl error =>
      (this, w, failure ("Failed to start analysis: " +:+ JS.message error))
  end.

Definition executeGetStatus (jobId : string) (this : Tools) (w : Remote)
  : Tools * Remote * envelope StatusReport :=
  match N8NClient.getExecutionStatus http jobId w with
  | (w', inr st) =>
      let this' := {| jobs := <[jobId := st]> (jobs this) |} in
      match status st, results st with
      | completed, Some res =>
          match generateResultSummary (analysis res) with
          | inr text =>
              (this', w',
               success (WithResults (status st) (progress st) (currentStep st)
                          {| result_analysis := analysis res;
                             result_deliverables := deliverables res;
                             summary := text |}))
          | inl error =>
              (this', w', failure ("Failed to get status: " +:+ JS.message error))
          end
      | _, _ =>
          (this', w',
           success (WithError (status st) (progress st) (currentStep st)
                      (status_error st)))
      end
  | (w', inl error) =>
      (this, w', failure ("Failed to get status: " +:+ JS.message error))
  end.

Definition executeListJobs (this : Tools) (w : Remote)
  : Tools * Remote * envelope (list ActiveJob * nat) :=
  match N8NClient.listActiveExecutions http w with
  | (w', inr activeJobs) =>
      (this, w',
       success (map (fun job =>
                       {| active_jobId := jobId job; active_status := status job;
                          active_progress := progress job;
                          active_currentStep := currentStep job |}) activeJobs,
                length activeJobs))
  | (w', inl error) =>
      (this, w', failure ("Failed to list jobs: " +:+ JS.message error))
  end.

(** The [switch] of [executeGetInsights]; a read of a field of an
    absent analysis throws. *)
Definition select_insights (insightType : string) (analysis : JS.maybe StoryAnalysis)
  : JS.throws Insights :=
  let field {A} (nm : string) (f : StoryAnalysis -> A) (k : A -> Insights) :=
    match analysis with
    | JS.present a => inr (k (f a))
    | JS.absent n => inl (JS.TypeError_reading n nm)
    end in
  if String.eqb insightType "people" then field "people" people OfPeople
  else if String.eqb insightType "places" then field "places" places OfPlaces
  else if String.eqb insightType "purpose" then field "purpose" purpose OfPurpose
  else if String.eqb insightType "plot" then field "plot" plot OfPlot
  else if String.eqb insightType "soundbites"
       then field "soundbites" soundbites OfSoundbites
  else if String.eqb insightType "transformation"
       then match extractTransformationInsights analysis with
            | inr v => inr (OfTransformation v)
            | inl error => inl error
            end
  else inr (OfAnalysis analysis).

Definition executeGetInsights (args : Args.GetInsights) (this : Tools) (w : Remote)
  : Tools * Remote * envelope Insights :=
  let insightType := default "all"%string (Args.insightType args) in
  match N8NClient.getExecutionStatus http (Args.jobId args) w with
  | (w', inr st) =>
      match status st, results st with
      | completed, Some res =>
          match select_insights insightType (analysis res) with
          | inr insights => (this, w', success insights)
          | inl error =>
              (this, w', failure ("Failed to get insights: " +:+ JS.message error))
          end
      | _, _ =>
          (this, w', failure "Analysis not completed yet or no results available")
      end
  | (w', inl error) =>
      (this, w', failure ("Failed to get insights: " +:+ JS.message error))
  end.

Definition multerFiles_of (files : list Args.File) : list N8NClient.MulterFile :=
  map (fun file =>
         {| N8NClient.originalname := Args.filename file;
            N8NClient.buffer := Buffer_from_base64 (Args.content file);
            N8NClient.mimetype := Args.mimeType file;
            N8NClient.multer_size := length (Buffer_from_base64 (Args.content file)) |})
      files.

(** [uploadedPaths.map((path, index) => ...)]: a read of [files[index]]
    beyond the array throws. *)
Fixpoint uploaded_from (index : nat) (files : list Args.File)
    (multerFiles : list N8NClient.MulterFile) (uploadedPaths : list string)
  : JS.throws (list MediaFile) :=
  match uploadedPaths with
  | [] => inr []
  | path :: paths =>
      match files !! index, multerFiles !! index with
      | Some file, Some mfile =>
          match uploaded_from (S index) files multerFiles paths with
          | inr rest =>
              inr ({| filename := Args.filename file;
                      filepath := path;
                      size := JS.num_of_nat (N8NClient.multer_size mfile);
                      mimeType := JS.VString (Args.mimeType file);
                      duration := None |} :: rest)
          | inl error => inl error
          end
      | None, _ => inl (JS.TypeError_reading JS.undefined "filename")
      | _, None => inl (JS.TypeError_reading JS.undefined "size")
      end
  end.

Definition executeUploadFiles (files : list Args.File) (this : Tools) (w : Remote)
  : Tools * Remote * envelope (string * list MediaFile) :=
  let multerFiles := multerFiles_of files in
  match N8NClient.uploadFiles http multerFiles w with
  | (w', inr uploadedPaths) =>
      match uploaded_from 0 files multerFiles uploadedPaths with
      | inr described =>
          (this, w', success ("Files uploaded successfully"%string, described))
      | inl error =>
          (this, w', failure ("Failed to upload files: " +:+ JS.message error))
      end
  | (w', inl error) =>
      (this, w', failure ("Failed to upload files: " +:+ JS.message error))
  end.

End Tools.
End StorytellingTools.

(* ===================================================================== *)
(** * Vocabulary of the properties *)
(* ===================================================================== *)

Module Binary64.
(** [m * 2^e] as a rational: the value of a finite double with
    mantissa [m] and exponent [e]. *)
Definition F2Q (m e : Z) : Q := (inject_Z m * 2 ^ e)%Q.

(** The exponent of the smallest subnormal double. *)
Definition emin : Z := -1074.

(** [x] is a positive double, possibly [+Infinity], of value at least
    [b * 2^eb], and its mantissa fits 53 bits. *)
Definition at_least (b eb : Z) (x : JS.number) : Prop :=
  match x with
  | S754_infinity false => True
  | S754_finite false m e => Z.pos m < 2 ^ 53 /\ (F2Q b eb <= F2Q (Z.pos m) e)%Q
  | _ => False
  end.

(** [x] is a double: its mantissa and exponent are the canonical ones
    of binary64. *)
Definition valid (x : JS.number) : Prop := valid_binary JS.prec JS.emax x = true.
End Binary64.

(** [s] contains [sub] as a substring. *)
Definition contains (s sub : string) : Prop :=
  exists before after, s = before +:+ sub +:+ after.

(** [kept] is [l] with exactly the elements that satisfy [P], in the
    order and multiplicity they have in [l]. *)
Inductive selected {A : Type} (P : A -> Prop) : list A -> list A -> Prop :=
| selected_nil : selected P [] []
| selected_keep x l kept : P x -> selected P l kept -> selected P (x :: l) (x :: kept)
| selected_drop x l kept : ~ P x -> selected P l kept -> selected P (x :: l) kept.

(** [x > k] on doubles, for an integer [k]. *)
Definition exceeds (k : Z) (x : JS.number) : Prop :=
  JS.num_gtb x (JS.num_of_Z k) = true.

(** The node count [calculateProgress] works from: the keys of the run
    data, none when there is no run data. *)
Definition completedNodeCount (execution : Types.Execution) : nat :=
  match N8NClient.runData_of execution with
  | Some keys => length keys
  | None => 0
  end.

(** ** Engines and records used as concrete instances *)

Module Sample.
Import Types.

(** An engine whose [GET /api/v1/executions/{id}] answers [execution]
    and whose workflow webhook answers the id ["42"]. *)
Definition answering (execution : Execution) : N8NClient.Http unit :=
  {| N8NClient.post_upload_file := fun w _ => (w, inr "/files/upload"%string);
     N8NClient.post_storytelling_analysis := fun w _ => (w, inr "42"%string);
     N8NClient.get_execution := fun w _ => (w, inr execution);
     N8NClient.get_executions := fun w => (w, inr []) |}.

(** An engine that stores every file except ["broken.wav"]; its state
    counts the requests it has seen. *)
Definition storing : N8NClient.Http nat :=
  {| N8NClient.post_upload_file := fun w file =>
       if String.eqb (N8NClient.originalname file) "broken.wav"
       then (S w, inl {| JS.name := "AxiosError";
                         JS.message := "Request failed with status code 500" |})
       else (S w, inr ("/files/" +:+ N8NClient.originalname file));
     N8NClient.post_storytelling_analysis := fun w _ => (S w, inr "42"%string);
     N8NClient.get_execution := fun w _ =>
       (S w, inl {| JS.name := "AxiosError";
                    JS.message := "Request failed with status code 404" |});
     N8NClient.get_executions := fun w => (S w, inr []) |}.

Definition multer (nm : string) : N8NClient.MulterFile :=
  {| N8NClient.originalname := nm; N8NClient.buffer := [];
     N8NClient.mimetype := "audio/wav"; N8NClient.multer_size := 0 |}.

(** The data of an execution that ran the nodes [keys] and reports the
    engine error [err], with the analysis [an] if one is given and no
    [analysis] property otherwise; and an execution in the state
    [(finished, stoppedAt)] that carries it. *)
Definition data_with (keys : option (list string)) (err : option string)
    (an : option StoryAnalysis) : ExecutionData :=
  {| resultData := Some {| runData := keys; error_message := err |};
     analysis := match an with
                 | Some a => JS.present a
                 | None => JS.absent JS.undefined
                 end;
     deliverables := None |}.

Definition execution_with (fin : bool) (stopped : option string)
    (keys : option (list string)) (err : option string)
    (an : option StoryAnalysis) : Execution :=
  {| finished := fin; stoppedAt := stopped;
     data := Some (data_with keys err an) |}.

Definition bite (txt : string) (impact : Z) : Soundbite :=
  {| text := txt; startTime := JS.num_of_Z 0; endTime := JS.num_of_Z 5;
     speaker := None; emotionalImpact := JS.num_of_Z impact;
     pCategory := "plot"; theme := "Family" |}.

Definition story : StoryAnalysis :=
  {| people := Some [ {| person_name := "Ana"; role := "founder";
                         person_significance := "learns to delegate" |} ];
     places := Some [];
     purpose := None;
     plot := Some [ {| event := "the fire"; timestamp := JS.num_of_Z 12;
                       plot_significance := "start of her transformation" |};
                    {| event := "the move"; timestamp := JS.num_of_Z 40;
                       plot_significance := "a new city" |} ];
     soundbites := Some [ bite "I had to let go" 9; bite "We moved" 7 ];
     overallNarrative := None |}.

Definition no_tools : StorytellingTools.Tools :=
  {| StorytellingTools.jobs := ∅ |}.

(** An engine that cannot be reached: every request throws. *)
Definition refusing : N8NClient.Http unit :=
  let refused := {| JS.name := "AxiosError";
                    JS.message := "connect ECONNREFUSED 127.0.0.1:5678" |} in
  {| N8NClient.post_upload_file := fun w _ => (w, inl refused);
     N8NClient.post_storytelling_analysis := fun w _ => (w, inl refused);
     N8NClient.get_execution := fun w _ => (w, inl refused);
     N8NClient.get_executions := fun w => (w, inl refused) |}.

(** An engine whose list of unfinished executions is [executions]. *)
Definition listing (executions : list (string * Execution)) : N8NClient.Http unit :=
  {| N8NClient.post_upload_file := fun w _ => (w, inr "/files/upload"%string);
     N8NClient.post_storytelling_analysis := fun w _ => (w, inr "42"%string);
     N8NClient.get_execution := fun w _ =>
       (w, inl {| JS.name := "AxiosError";
                  JS.message := "Request failed with status code 404" |});
     N8NClient.get_executions := fun w => (w, inr executions) |}.



Definition family_args (urls : list string) : StorytellingTools.Args.StartAnalysis :=
  {| StorytellingTools.Args.themes :=
       [ {| StorytellingTools.Args.name := "Family";
            StorytellingTools.Args.description := None;
            StorytellingTools.Args.priority := Some "high"%string |} ];
     StorytellingTools.Args.outputOptions := JS.absent JS.undefined;
     StorytellingTools.Args.fileUrls := urls |}.

(** A finished execution whose data has [analysis: null], and a call of
    start-analysis with [outputOptions: null]. *)
Definition null_analysis : Execution :=
  {| finished := true; stoppedAt := None;
     data := Some {| resultData := Some {| runData := Some []; error_message := None |};
                     analysis := JS.absent JS.null; deliverables := None |} |}.


(** A cache that already holds the job ["7"], polled as finished. *)
Definition one_job : StorytellingTools.Tools :=
  {| StorytellingTools.jobs :=
       {[ "7"%string :=
            N8NClient.statusOf "7" (execution_with true None (Some []) None (Some story)) ]} |}.
End Sample.

(* ===================================================================== *)
(** * Evaluations *)
(* ===================================================================== *)

Example status_stopped_and_finished :
  N8NClient.mapN8NStatus true (Some "2024-05-01T10:00:00.000Z"%string) = Types.failed.
Proof. reflexivity. Qed.

Example status_finished : N8NClient.mapN8NStatus true None = Types.completed.
Proof. reflexivity. Qed.

Example status_running : N8NClient.mapN8NStatus false None = Types.processing.
Proof. reflexivity. Qed.

Example progress_three_nodes :
  N8NClient.calculateProgress
    (Sample.execution_with false None
       (Some ["Upload Interviews Webhook"; "Process Input Files";
              "Transcribe with Whisper"]%string) None None)
  = JS.num_of_Z 30.
Proof. vm_compute. reflexivity. Qed.

(** Eleven nodes give 110.00000000000001 before the clamp, 100 after. *)
Example progress_eleven_nodes :
  JS.num_mul (JS.num_div (JS.num_of_nat 11) (JS.num_of_Z 10)) (JS.num_of_Z 100)
    = S754_finite false 7740561859543041 (-46) /\
  N8NClient.calculateProgress
    (Sample.execution_with false None (Some (replicate 11 "node"%string)) None None)
  = JS.num_of_Z 100.
Proof. split; vm_compute; reflexivity. Qed.

Example step_of_known_node :
  N8NClient.getCurrentStep
    (Sample.execution_with false None
       (Some ["Upload Interviews Webhook"; "Transcribe with Whisper"]%string) None None)
  = JS.VString "Transcribing audio...".
Proof. reflexivity. Qed.

Example step_of_unknown_node :
  N8NClient.getCurrentStep
    (Sample.execution_with false None (Some ["Notify Slack"%string]) None None)
  = JS.VString "Processing...".
Proof. reflexivity. Qed.

Example step_of_empty_run_data :
  N8NClient.getCurrentStep (Sample.execution_with false None (Some []) None None)
  = JS.VString "Processing...".
Proof. reflexivity. Qed.

Example step_without_run_data :
  N8NClient.getCurrentStep (Sample.execution_with false None None None None)
  = JS.VString "Starting...".
Proof. reflexivity. Qed.

Example mime_of_upper_case : StorytellingTools.getMimeTypeFromUrl "Clip.MOV"
  = JS.VString "video/quicktime".
Proof. reflexivity. Qed.

Example mime_of_last_extension : StorytellingTools.getMimeTypeFromUrl "take.mp4.bak"
  = JS.VString "application/octet-stream".
Proof. reflexivity. Qed.

Example mime_without_dot : StorytellingTools.getMimeTypeFromUrl "wav"
  = JS.VString "audio/wav".
Proof. reflexivity. Qed.

Example mime_of_inherited_name : StorytellingTools.getMimeTypeFromUrl "take.constructor"
  = JS.VInherited "constructor".
Proof. reflexivity. Qed.

Example insights_of_sample_story :
  StorytellingTools.extractTransformationInsights (JS.present Sample.story) =
  inr {| StorytellingTools.transformationMoments :=
           Some [ {| Types.event := "the fire"; Types.timestamp := JS.num_of_Z 12;
                     Types.plot_significance := "start of her transformation" |} ];
         StorytellingTools.keyCharacterArcs :=
           Some [ {| StorytellingTools.character := "Ana";
                     StorytellingTools.transformation := "learns to delegate" |} ];
         StorytellingTools.emotionalHighpoints :=
           Some [ Sample.bite "I had to let go" 9 ] |}.
Proof. vm_compute. reflexivity. Qed.

Example summary_of_sample_story :
  StorytellingTools.generateResultSummary (JS.present Sample.story) =
  inr ("Analysis completed with 2 soundbites identified across 1 key characters. "
       +:+ "The story explores themes of transformation through 0 core purposes "
       +:+ "across 0 significant locations.").
Proof. vm_compute. reflexivity. Qed.

(* ===================================================================== *)
(** * Facts about binary64 arithmetic *)
(* ===================================================================== *)

Section Binary64_facts.
Import Binary64.

Lemma digits2_pos_size p : digits2_pos p = Pos.size p.
Proof. induction p; simpl; congruence. Qed.

(** A mantissa of [d] binary digits lies in [[2^(d-1), 2^d)]. *)
Lemma digits2_pos_bounds p :
  2 ^ (Z.pos (digits2_pos p) - 1) <= Z.pos p < 2 ^ Z.pos (digits2_pos p).
Proof.
  rewrite digits2_pos_size. split.
  - pose proof (Pos.size_le p) as H.
    apply Pos2Z.pos_le_pos in H. rewrite Pos2Z.inj_pow in H.
    replace (Z.pos (Pos.size p)) with (Z.succ (Z.pos (Pos.size p) - 1)) in H by lia.
    rewrite Z.pow_succ_r in H by lia. lia.
  - pose proof (Pos.size_gt p) as H.
    apply Pos2Z.pos_lt_pos in H. now rewrite Pos2Z.inj_pow in H.
Qed.

Lemma shr_1_div2 mrs : 0 <= shr_m mrs -> shr_m (shr_1 mrs) = shr_m mrs / 2.
Proof.
  destruct mrs as [m r s]; simpl. intros Hm.
  destruct m as [|p|p]; [reflexivity| |lia].
  destruct p as [p|p|]; simpl.
  - rewrite Pos2Z.inj_xI. apply Z.div_unique with 1; lia.
  - rewrite Pos2Z.inj_xO. apply Z.div_unique with 0; lia.
  - reflexivity.
Qed.

(** Shifting right by [p] places divides the mantissa by [2^p]. *)
Lemma iter_shr_1_div p : forall mrs, 0 <= shr_m mrs ->
  shr_m (SpecFloat.iter_pos shr_1 p mrs) = shr_m mrs / 2 ^ Z.pos p.
Proof.
  induction p as [p IH|p IH|]; intros mrs Hm; simpl SpecFloat.iter_pos.
  - assert (H1 : 0 <= shr_m (shr_1 mrs)).
    { rewrite shr_1_div2 by assumption. apply Z.div_pos; lia. }
    assert (H2 : 0 <= shr_m (SpecFloat.iter_pos shr_1 p (shr_1 mrs))).
    { rewrite IH by assumption. apply Z.div_pos; [lia|]. apply Z.pow_pos_nonneg; lia. }
    rewrite IH, IH, shr_1_div2 by assumption.
    rewrite !Z.div_div by (try apply Z.pow_pos_nonneg; lia).
    f_equal. replace (Z.pos p~1) with (1 + Z.pos p + Z.pos p) by lia.
    rewrite !Z.pow_add_r by lia. change (2 ^ 1) with 2. ring.
  - assert (H2 : 0 <= shr_m (SpecFloat.iter_pos shr_1 p mrs)).
    { rewrite IH by assumption. apply Z.div_pos; [lia|]. apply Z.pow_pos_nonneg; lia. }
    rewrite IH, IH by assumption.
    rewrite Z.div_div by (try apply Z.pow_pos_nonneg; lia).
    f_equal. replace (Z.pos p~0) with (Z.pos p + Z.pos p) by lia.
    now rewrite Z.pow_add_r by lia.
  - rewrite shr_1_div2 by assumption. reflexivity.
Qed.



Local Open Scope Q_scope.

Lemma bpow_pos e : 0 < 2 ^ e.
Proof. apply Qpower_0_lt. reflexivity. Qed.

Lemma bpow_add a b : 2 ^ (a + b) == 2 ^ a * 2 ^ b.
Proof. apply Qpower_plus. discriminate. Qed.

Lemma bpow_Z k : (0 <= k)%Z -> 2 ^ k == inject_Z (2 ^ k).
Proof. intros Hk. now rewrite Zpower_Qpower. Qed.

Lemma bpow_le a b : (a <= b)%Z -> 2 ^ a <= 2 ^ b.
Proof. intros H. apply Qpower_le_compat_l; [assumption|discriminate]. Qed.

Lemma F2Q_shift m e k : (0 <= k)%Z -> F2Q m (e + k) == F2Q (m * 2 ^ k) e.
Proof.
  intros Hk. unfold F2Q. rewrite bpow_add, (bpow_Z k Hk), inject_Z_mult. ring.
Qed.

Lemma F2Q_le m1 m2 e : F2Q m1 e <= F2Q m2 e <-> (m1 <= m2)%Z.
Proof.
  unfold F2Q. rewrite Zle_Qle. pose proof (bpow_pos e) as Hp. split; intros H.
  - apply Qmult_le_r in H; assumption.
  - apply Qmult_le_r; assumption.
Qed.

Lemma F2Q_lt m1 m2 e : F2Q m1 e < F2Q m2 e <-> (m1 < m2)%Z.
Proof.
  unfold F2Q. rewrite Zlt_Qlt. pose proof (bpow_pos e) as Hp. split; intros H.
  - apply Qmult_lt_r in H; assumption.
  - apply Qmult_lt_r; assumption.
Qed.

Lemma F2Q_exp_le m e1 e2 : (0 <= m)%Z -> (e1 <= e2)%Z -> F2Q m e1 <= F2Q m e2.
Proof.
  intros Hm He. unfold F2Q. rewrite !(Qmult_comm (inject_Z m)).
  apply Qmult_le_compat_r; [now apply bpow_le|]. change (inject_Z 0 <= inject_Z m). now rewrite <- Zle_Qle.
Qed.


Lemma fexp_eq e : fexp JS.prec JS.emax e = Z.max (e - 53) emin.
Proof. reflexivity. Qed.

(** Truncation to the format keeps a value above any representable bound. *)
Lemma shr_fexp_spec m e l b eb :
  (0 < m)%Z -> (0 < b < 2 ^ 53)%Z -> (emin <= eb)%Z ->
  F2Q b eb <= F2Q m e ->
  exists m' e' r s,
    shr_fexp JS.prec JS.emax m e l = ({| shr_m := m'; shr_r := r; shr_s := s |}, e') /\
    (0 < m' < 2 ^ 53)%Z /\ F2Q b eb <= F2Q m' e'.
Proof.
  intros Hm Hb Heb Hle.
  destruct m as [|p|p]; try lia.
  pose proof (digits2_pos_bounds p) as [Hlo Hhi].
  unfold shr_fexp, Zdigits2. rewrite fexp_eq.
  set (d := Z.pos (digits2_pos p)) in *.
  set (n := (Z.max (d + e - 53) emin - e)%Z).
  assert (Hlow : forall m' e', F2Q b eb <= F2Q m' e' -> (0 < m')%Z).
  { intros m' e' H. apply (F2Q_lt 0 m' e').
    apply Qlt_le_trans with (F2Q b eb); [|assumption].
    unfold F2Q at 1. rewrite Qmult_0_l.
    apply Qmult_lt_0_compat; [|apply bpow_pos].
    change (inject_Z 0 < inject_Z b). rewrite <- Zlt_Qlt. lia. }
  destruct n as [|q|q] eqn:En.
  - (* no shift *)
    destruct (shr_record_of_loc (Z.pos p) l) as [m0 r0 s0] eqn:Hr.
    assert (m0 = Z.pos p) by (destruct l as [|[| |]]; inversion Hr; reflexivity).
    subst m0. exists (Z.pos p), e, r0, s0. unfold shr. repeat split; try assumption; try lia.
    assert (d <= 53)%Z by lia.
    apply Z.lt_le_trans with (2 ^ d)%Z; [assumption|]. apply Z.pow_le_mono_r; lia.
  - (* a shift by [q] places *)
    simpl shr.
    destruct (SpecFloat.iter_pos shr_1 q (shr_record_of_loc (Z.pos p) l)) as [m' r' s'] eqn:Hit.
    assert (Hm0 : shr_m (shr_record_of_loc (Z.pos p) l) = Z.pos p)
      by (destruct l as [|[| |]]; reflexivity).
    assert (Hm' : m' = (Z.pos p / 2 ^ Z.pos q)%Z).
    { change m' with (shr_m {| shr_m := m'; shr_r := r'; shr_s := s' |}).
      rewrite <- Hit, iter_shr_1_div; rewrite Hm0; [reflexivity | lia]. }
    assert (Hpow : (0 < 2 ^ Z.pos q)%Z) by (apply Z.pow_pos_nonneg; lia).
    assert (Hbound : F2Q b eb <= F2Q m' (e + Z.pos q)).
    { destruct (Z_le_gt_dec (e + Z.pos q) eb) as [Hc|Hc].
      - (* the bound is a multiple of the new unit *)
        set (k := (eb - (e + Z.pos q))%Z).
        assert (Hk : (0 <= k)%Z) by (unfold k; lia).
        assert (E1 : F2Q b eb == F2Q (b * 2 ^ k) (e + Z.pos q)).
        { rewrite <- F2Q_shift by assumption. unfold k.
          now replace (e + Z.pos q + (eb - (e + Z.pos q)))%Z with eb by lia. }
        rewrite E1. apply F2Q_le. rewrite Hm'.
        apply Z.div_le_lower_bound; [assumption|].
        apply (F2Q_le _ _ e). rewrite (Z.mul_comm (2 ^ Z.pos q)).
        rewrite <- (F2Q_shift (b * 2 ^ k) e (Z.pos q)) by lia.
        rewrite <- (F2Q_shift b (e + Z.pos q) k) by lia.
        replace (e + Z.pos q + k)%Z with eb by (unfold k; lia). assumption.
      - (* the result keeps a full mantissa, above every such bound *)
        assert (Hq : Z.pos q = (d - 53)%Z) by lia.
        assert (H52 : (2 ^ 52 <= m')%Z).
        { rewrite Hm'. apply Z.div_le_lower_bound; [assumption|].
          rewrite Hq, <- Z.pow_add_r by lia.
          now replace (d - 53 + 52)%Z with (d - 1)%Z by lia. }
        apply Qle_trans with (F2Q (2 ^ 53) eb).
        { apply F2Q_le. lia. }
        apply Qle_trans with (F2Q (2 ^ 53) (e + Z.pos q - 1)).
        { apply F2Q_exp_le; lia. }
        apply Qle_trans with (F2Q (2 ^ 52) (e + Z.pos q)).
        { replace (e + Z.pos q)%Z with (e + Z.pos q - 1 + 1)%Z at 2 by lia.
          rewrite F2Q_shift by lia. apply F2Q_le. reflexivity. }
        apply F2Q_le. assumption. }
    exists m', (e + Z.pos q)%Z, r', s'. repeat split; try assumption.
    + now apply (Hlow m' (e + Z.pos q)%Z).
    + rewrite Hm'. apply Z.div_lt_upper_bound; [assumption|].
      apply Z.lt_le_trans with (2 ^ d)%Z; [assumption|].
      rewrite <- Z.pow_add_r by lia. apply Z.pow_le_mono_r; lia.
  - (* no shift *)
    destruct (shr_record_of_loc (Z.pos p) l) as [m0 r0 s0] eqn:Hr.
    assert (m0 = Z.pos p) by (destruct l as [|[| |]]; inversion Hr; reflexivity).
    subst m0. exists (Z.pos p), e, r0, s0. unfold shr. repeat split; try assumption; try lia.
    assert (d <= 53)%Z by lia.
    apply Z.lt_le_trans with (2 ^ d)%Z; [assumption|]. apply Z.pow_le_mono_r; lia.
Qed.

Lemma F2Q_pos_of_le b eb m e : (0 < b)%Z -> F2Q b eb <= F2Q m e -> (0 < m)%Z.
Proof.
  intros Hb H. apply (F2Q_lt 0 m e).
  apply Qlt_le_trans with (F2Q b eb); [|assumption].
  unfold F2Q at 1. rewrite Qmult_0_l.
  apply Qmult_lt_0_compat; [|apply bpow_pos].
  change (inject_Z 0 < inject_Z b). rewrite <- Zlt_Qlt. lia.
Qed.

Lemma full_mantissa_bound b eb m e :
  (0 < b < 2 ^ 53)%Z -> (eb < e)%Z -> (2 ^ 52 <= m)%Z -> F2Q b eb <= F2Q m e.
Proof.
  intros Hb He Hm.
  apply Qle_trans with (F2Q (2 ^ 53) eb); [apply F2Q_le; lia|].
  apply Qle_trans with (F2Q (2 ^ 53) (e - 1)); [apply F2Q_exp_le; lia|].
  apply Qle_trans with (F2Q (2 ^ 52) e); [|now apply F2Q_le].
  replace e with (e - 1 + 1)%Z at 2 by lia.
  rewrite F2Q_shift by lia. apply F2Q_le. reflexivity.
Qed.


(** Rounding to nearest even never goes below a bound that is itself a
    double: truncate, round, renormalise. *)
Lemma binary_round_aux_at_least mx ex lx b eb :
  (0 < mx)%Z -> (0 < b < 2 ^ 53)%Z -> (emin <= eb)%Z ->
  F2Q b eb <= F2Q mx ex ->
  at_least b eb (binary_round_aux JS.prec JS.emax false mx ex lx).
Proof.
  intros Hmx Hb Heb Hle. unfold binary_round_aux.
  destruct (shr_fexp_spec mx ex lx b eb Hmx Hb Heb Hle)
    as (m1 & e1 & r1 & s1 & E1 & Hm1 & Hb1).
  rewrite E1. cbn [shr_m].
  set (m2 := round_nearest_even m1 _).
  assert (Hm2 : (m1 <= m2)%Z).
  { unfold m2. destruct r1, s1; cbn; try destruct (Z.even m1); lia. }
  assert (Hb2 : F2Q b eb <= F2Q m2 e1).
  { apply Qle_trans with (F2Q m1 e1); [assumption|]. now apply F2Q_le. }
  destruct (shr_fexp_spec m2 e1 loc_Exact b eb ltac:(lia) Hb Heb Hb2)
    as (m3 & e3 & r3 & s3 & E3 & Hm3 & Hb3).
  rewrite E3. cbn [shr_m].
  destruct m3 as [|p3|p3]; try lia.
  destruct (e3 <=? JS.emax - JS.prec)%Z; unfold at_least;
    [split; [apply Hm3 | exact Hb3] | exact I].
Qed.

Lemma F2Q_mul m1 e1 m2 e2 : F2Q (m1 * m2) (e1 + e2) == F2Q m1 e1 * F2Q m2 e2.
Proof. unfold F2Q. rewrite bpow_add, inject_Z_mult. ring. Qed.

Lemma F2Q_nonneg m e : (0 <= m)%Z -> 0 <= F2Q m e.
Proof.
  intros H. unfold F2Q. apply Qmult_le_0_compat.
  - change (inject_Z 0 <= inject_Z m). now rewrite <- Zle_Qle.
  - apply Qlt_le_weak, bpow_pos.
Qed.

(** A product by a positive double stays above the product of the bounds. *)
Lemma SFmul_at_least x my ey b1 e1 b eb :
  at_least b1 e1 x ->
  (0 < b < 2 ^ 53)%Z -> (emin <= eb)%Z ->
  F2Q b eb <= F2Q b1 e1 * F2Q (Z.pos my) ey ->
  at_least b eb (SFmul JS.prec JS.emax x (S754_finite false my ey)).
Proof.
  intros Hx Hb Heb Hle.
  destruct x as [| [|] | | [|] mx ex]; cbn in Hx; try contradiction; [exact I|].
  destruct Hx as [_ Hx]. cbn [SFmul xorb].
  apply binary_round_aux_at_least; try assumption; [lia|].
  rewrite Pos2Z.inj_mul, F2Q_mul.
  apply Qle_trans with (1 := Hle).
  apply Qmult_le_compat_r; [assumption|]. apply F2Q_nonneg. lia.
Qed.

(** A quotient by a positive double stays above the quotient of the
    bounds: the integer division loses less than one unit of the result. *)
Lemma SFdiv_at_least x my ey b1 e1 b eb :
  at_least b1 e1 x ->
  (0 < b < 2 ^ 53)%Z -> (emin <= eb)%Z ->
  F2Q b eb * F2Q (Z.pos my) ey <= F2Q b1 e1 ->
  at_least b eb (SFdiv JS.prec JS.emax x (S754_finite false my ey)).
Proof.
  intros Hx Hb Heb Hle.
  destruct x as [| [|] | | [|] mx ex]; cbn in Hx; try contradiction; [exact I|].
  destruct Hx as [_ Hx]. cbn [SFdiv xorb].
  assert (Hle' : F2Q (b * Z.pos my) (eb + ey) <= F2Q (Z.pos mx) ex).
  { rewrite F2Q_mul. now apply Qle_trans with (1 := Hle). }
  unfold SFdiv_core_binary, Zdigits2. rewrite fexp_eq.
  pose proof (digits2_pos_bounds mx) as [Hlo1 Hhi1].
  pose proof (digits2_pos_bounds my) as [Hlo2 Hhi2].
  set (d1 := Z.pos (digits2_pos mx)) in *.
  set (d2 := Z.pos (digits2_pos my)) in *.
  set (e' := Z.min (Z.max (d1 + ex - (d2 + ey) - 53) emin) (ex - ey)).
  set (s := (ex - ey - e')%Z).
  assert (Hs : (0 <= s)%Z) by (unfold s, e'; lia).
  set (m' := match s with
             | Z.pos _ => Z.shiftl (Z.pos mx) s
             | 0%Z => Z.pos mx
             | Z.neg _ => 0%Z
             end).
  assert (Hm' : m' = (Z.pos mx * 2 ^ s)%Z).
  { unfold m'. destruct s as [|q|q] eqn:Es; [rewrite Z.pow_0_r; lia| |lia].
    apply Z.shiftl_mul_pow2. lia. }
  destruct (Z.div_eucl m' (Z.pos my)) as [q r] eqn:Ediv.
  assert (Hq : q = (m' / Z.pos my)%Z) by (unfold Z.div; now rewrite Ediv).
  assert (Hbound : F2Q b eb <= F2Q q e').
  { destruct (Z_le_gt_dec e' eb) as [Hc|Hc].
    - set (k := (eb - e')%Z).
      assert (E1 : F2Q b eb == F2Q (b * 2 ^ k) e').
      { rewrite <- F2Q_shift by (unfold k; lia).
        now replace (e' + k)%Z with eb by (unfold k; lia). }
      rewrite E1. apply F2Q_le. rewrite Hq, Hm'.
      apply Z.div_le_lower_bound; [lia|].
      apply (F2Q_le _ _ (e' + ey)).
      rewrite <- (F2Q_shift (Z.pos mx) (e' + ey) s) by assumption.
      replace (e' + ey + s)%Z with ex by (unfold s; lia).
      replace (Z.pos my * (b * 2 ^ k))%Z with (b * Z.pos my * 2 ^ k)%Z by ring.
      rewrite <- (F2Q_shift (b * Z.pos my) (e' + ey) k) by (unfold k; lia).
      now replace (e' + ey + k)%Z with (eb + ey)%Z by (unfold k; lia).
    - apply full_mantissa_bound; [assumption|lia|].
      rewrite Hq, Hm'. apply Z.div_le_lower_bound; [lia|].
      assert (Hs' : (d2 - d1 + 53 <= s)%Z) by (unfold s, e' in *; lia).
      apply Z.le_trans with (2 ^ d2 * 2 ^ 52)%Z.
      { apply Z.mul_le_mono_nonneg_r; lia. }
      apply Z.le_trans with (2 ^ (d1 - 1) * 2 ^ s)%Z.
      { rewrite <- !Z.pow_add_r by (unfold d1, d2; lia).
        apply Z.pow_le_mono_r; lia. }
      apply Z.mul_le_mono_nonneg_r; [|assumption].
      apply Z.pow_nonneg; lia. }
  apply binary_round_aux_at_least; try assumption.
  apply F2Q_pos_of_le with (2 := Hbound). lia.
Qed.

(** Aligning a mantissa to a smaller exponent keeps the value. *)
Lemma shl_align_value mx ex ex' :
  F2Q (Z.pos (fst (shl_align mx ex ex'))) (snd (shl_align mx ex ex'))
  == F2Q (Z.pos mx) ex.
Proof.
  unfold shl_align. destruct (ex' - ex)%Z as [|d|d] eqn:E; try reflexivity.
  cbn [fst snd]. change (Pos.iter xO mx d) with (shift_pos d mx).
  rewrite shift_pos_correct. change (Zpower_pos 2 d) with (2 ^ Z.pos d)%Z.
  replace ex with (ex' + Z.pos d)%Z by lia.
  rewrite F2Q_shift, Z.mul_comm by lia. reflexivity.
Qed.


(** The double of an integer is not below a double the integer is not below. *)
Lemma num_of_Z_at_least z b eb :
  (0 < b < 2 ^ 53)%Z -> (emin <= eb)%Z -> F2Q b eb <= inject_Z z ->
  at_least b eb (JS.num_of_Z z).
Proof.
  intros Hb Heb Hle.
  assert (Hz : F2Q z 0 == inject_Z z) by (unfold F2Q; cbn; ring).
  rewrite <- Hz in Hle.
  pose proof (F2Q_pos_of_le _ _ _ _ (proj1 Hb) Hle) as Hpos.
  destruct z as [|p|p]; try lia.
  unfold JS.num_of_Z, binary_normalize, binary_round.
  pose proof (shl_align_value p 0 (fexp JS.prec JS.emax (Z.pos (digits2_pos p) + 0))) as Hv.
  destruct (shl_align p 0 _) as [mz ez]. cbn [fst snd] in Hv.
  apply binary_round_aux_at_least; [lia | assumption | assumption |].
  now rewrite Hv.
Qed.



Lemma ten_eq : JS.num_of_Z 10 = S754_finite false 5629499534213120 (-49).
Proof. vm_compute. reflexivity. Qed.
Lemma hundred_eq : JS.num_of_Z 100 = S754_finite false 7036874417766400 (-46).
Proof. vm_compute. reflexivity. Qed.

(** [Math.min(x, 100)] is [100] once [x] is at least [100]. *)
Lemma Math_min_hundred x : at_least 25 2 x -> JS.Math_min x (JS.num_of_Z 100) = JS.num_of_Z 100.
Proof.
  rewrite hundred_eq.
  destruct x as [| [|] | | [|] m e]; cbn [at_least]; try contradiction; [reflexivity|].
  intros [Hm Hle]. unfold JS.Math_min, SFcompare.
  destruct (Z.compare_spec e (-46)) as [He|He|He]; [|exfalso|reflexivity].
  - subst e. rewrite Pos.compare_cont_spec. cbn [Pos.switch_Eq].
    destruct (Pos.compare_spec m 7036874417766400) as [Hc|Hc|Hc]; try reflexivity.
    exfalso. apply (Qle_not_lt _ _ Hle).
    apply Qlt_le_trans with (F2Q 7036874417766400 (-46)).
    + apply (proj2 (F2Q_lt (Z.pos m) 7036874417766400 (-46))).
      now apply Pos2Z.pos_lt_pos.
    + vm_compute. discriminate.
  - apply (Qle_not_lt _ _ Hle).
    apply Qlt_le_trans with (F2Q (2 ^ 53) e).
    + apply (proj2 (F2Q_lt (Z.pos m) (2 ^ 53) e)). exact Hm.
    + apply Qle_trans with (F2Q (2 ^ 53) (-47)).
      * apply (F2Q_exp_le (2 ^ 53) e (-47)).
        -- apply Z.pow_nonneg. clear. lia.
        -- clear -He. lia.
      * vm_compute. discriminate.
Qed.
(** From ten nodes on the quotient is at least one, the product at
    least a hundred, and [Math.min] answers its second argument. *)
Lemma progress_clamped n :
  (10 <= n)%nat ->
  JS.Math_min
    (JS.num_mul (JS.num_div (JS.num_of_nat n) (JS.num_of_Z 10)) (JS.num_of_Z 100))
    (JS.num_of_Z 100) = JS.num_of_Z 100.
Proof.
  intros Hn. apply Math_min_hundred. unfold JS.num_mul, JS.num_div, JS.num_of_nat.
  rewrite hundred_eq.
  apply SFmul_at_least with (b1 := 1%Z) (e1 := 0%Z);
    [| split; [reflexivity | reflexivity] | discriminate |].
  - rewrite ten_eq.
    apply SFdiv_at_least with (b1 := 5%Z) (e1 := 1%Z);
      [| split; [reflexivity | reflexivity] | discriminate |].
    + apply num_of_Z_at_least; [split; reflexivity | discriminate |].
      apply Qle_trans with (inject_Z 10); [vm_compute; discriminate|].
      rewrite <- Zle_Qle. lia.
    + vm_compute. discriminate.
  - vm_compute. discriminate.
Qed.

(** On doubles, [x > 7] is the order of the values: [x] is [+Infinity]
    or a finite double of value above 7. *)
Lemma exceeds_seven_spec (x : JS.number) :
  valid x ->
  exceeds 7 x <->
  x = S754_infinity false \/ exists q, JS.num_to_Q x = Some q /\ 7 < q.
Proof.
  unfold valid, exceeds, JS.num_gtb, SFltb. intros Hv.
  assert (E7 : JS.num_of_Z 7 = S754_finite false 7881299347898368 (-50))
    by (vm_compute; reflexivity).
  rewrite E7. clear E7.
  destruct x as [s | [|] | | [|] m e]; cbn [SFcompare JS.num_to_Q].
  - split; [discriminate|]. intros [H | (q & [= <-] & H)]; [discriminate|].
    now vm_compute in H.
  - split; [discriminate|]. intros [H | (q & H & _)]; discriminate.
  - split; [now left | reflexivity].
  - split; [discriminate|]. intros [H | (q & H & _)]; discriminate.
  - split; [discriminate|]. intros [H | (q & [= <-] & H)]; [discriminate|].
    exfalso. apply (Qlt_not_le _ _ H).
    apply Qle_trans with 0; [|discriminate].
    change (- F2Q (Z.pos m) e <= - 0). apply Qopp_le_compat.
    apply (F2Q_nonneg (Z.pos m) e). lia.
  - cbn [valid_binary] in Hv. unfold bounded, canonical_mantissa in Hv.
    apply andb_prop in Hv as [Hc _]. apply Z.eqb_eq in Hc.
    rewrite fexp_eq in Hc. unfold emin in Hc.
    pose proof (digits2_pos_bounds m) as [Hlo Hhi].
    set (d := Z.pos (digits2_pos m)) in *.
    change (inject_Z (Z.pos m) * 2 ^ e) with (F2Q (Z.pos m) e).
    assert (H7 : 7 == F2Q 7881299347898368 (-50)) by (vm_compute; reflexivity).
    destruct (Z.compare_spec (-50) e) as [He|He|He].
    + subst e. rewrite Pos.compare_cont_spec. cbn [Pos.switch_Eq].
      destruct (Pos.compare_spec 7881299347898368 m) as [Hm|Hm|Hm].
      * subst m. split; [discriminate|].
        intros [H | (q & [= <-] & H)]; [discriminate|].
        rewrite H7 in H. now apply Qlt_irrefl in H.
      * split; [|reflexivity]. intros _. right. eexists. split; [reflexivity|].
        rewrite H7. apply (proj2 (F2Q_lt 7881299347898368 (Z.pos m) (-50))).
        now apply Pos2Z.pos_lt_pos.
      * split; [discriminate|].
        intros [H | (q & [= <-] & H)]; [discriminate|].
        rewrite H7 in H. apply F2Q_lt in H. apply Pos2Z.pos_lt_pos in Hm. lia.
    + (* a larger exponent: the mantissa is full, the value at least 8 *)
      split; [|reflexivity]. intros _. right. eexists. split; [reflexivity|].
      assert (Hd : d = 53%Z) by lia. rewrite Hd in Hlo.
      apply Qlt_le_trans with (F2Q (2 ^ 52) (-49)); [vm_compute; reflexivity|].
      apply Qle_trans with (F2Q (2 ^ 52) e).
      * apply (F2Q_exp_le (2 ^ 52) (-49) e); [apply Z.pow_nonneg|]; clear -He; lia.
      * apply (proj2 (F2Q_le (2 ^ 52) (Z.pos m) e)). exact Hlo.
    + (* a smaller exponent: the value is below 4 *)
      split; [discriminate|].
      intros [H | (q & [= <-] & H)]; [discriminate|].
      exfalso. apply (Qlt_not_le _ _ H).
      apply Qle_trans with (F2Q (2 ^ 53) (-51)); [|vm_compute; discriminate].
      apply Qle_trans with (F2Q (2 ^ 53) e).
      * apply (proj2 (F2Q_le (Z.pos m) (2 ^ 53) e)).
        assert (Hd : (d <= 53)%Z) by (clear -Hc; lia).
        apply Z.lt_le_incl, Z.lt_le_trans with (2 ^ d)%Z; [exact Hhi|].
        apply Z.pow_le_mono_r; [reflexivity | exact Hd].
      * apply (F2Q_exp_le (2 ^ 53) e (-51)); [apply Z.pow_nonneg|]; clear -He; lia.
Qed.

End Binary64_facts.

(* ===================================================================== *)
(** * Strings and selections *)
(* ===================================================================== *)

Lemma prefix_spec p : forall s,
  String.prefix p s = true <-> exists rest, s = p +:+ rest.
Proof.
  induction p as [|c p IH]; intros s; cbn.
  - split; [eauto | now destruct s].
  - destruct s as [|c' s]; cbn.
    + split; [discriminate | intros [rest H]; discriminate].
    + destruct (ascii_dec c c') as [->|Hne].
      * rewrite IH. split; intros [rest H]; exists rest.
        -- now rewrite H.
        -- change (String c' s = String c' (p +:+ rest)) in H. congruence.
      * split; [discriminate | intros [rest H]].
        change (String c' s = String c (p +:+ rest)) in H. congruence.
Qed.

Lemma includes_spec sub : forall s, JS.includes s sub = true <-> contains s sub.
Proof.
  intros s. split.
  - induction s as [|c s IH]; cbn [JS.includes]; rewrite orb_true_iff.
    + intros [H|H]; [|discriminate].
      apply prefix_spec in H as [rest H]. now exists ""%string, rest.
    + intros [H|H].
      * apply prefix_spec in H as [rest H]. now exists ""%string, rest.
      * destruct (IH H) as (before & after & ->).
        now exists (String c before), after.
  - intros (before & after & ->).
    induction before as [|c before IH].
    + assert (H : String.prefix sub (sub +:+ after) = true)
        by (apply prefix_spec; eauto).
      change ("" +:+ sub +:+ after)%string with (sub +:+ after).
      destruct (sub +:+ after); cbn [JS.includes]; now rewrite H.
    + change (String c before +:+ sub +:+ after)
        with (String c (before +:+ sub +:+ after)).
      cbn [JS.includes]. rewrite IH. apply orb_true_r.
Qed.

Lemma filter_selected {A : Type} (f : A -> bool) (P : A -> Prop) (l : list A) :
  (forall x, f x = true <-> P x) -> selected P l (List.filter f l).
Proof.
  intros Hf. induction l as [|x l IH]; cbn.
  - constructor.
  - destruct (f x) eqn:E.
    + apply selected_keep; [now apply Hf | assumption].
    + apply selected_drop; [| assumption].
      intros HP. apply Hf in HP. congruence.
Qed.

(** A selection is determined by the list and the property. *)
Lemma selected_unique {A : Type} (P : A -> Prop) (l k1 k2 : list A) :
  selected P l k1 -> selected P l k2 -> k1 = k2.
Proof.
  intros H1. revert k2.
  induction H1 as [|x l k1 Hx _ IH|x l k1 Hx _ IH]; intros k2 H2;
    inversion H2; subst; try contradiction; try reflexivity.
  - f_equal. now apply IH.
  - now apply IH.
Qed.

Lemma selected_elem_of {A : Type} (P : A -> Prop) (l kept : list A) :
  selected P l kept -> forall x, x ∈ kept <-> x ∈ l /\ P x.
Proof.
  induction 1 as [|y l kept Hy _ IH|y l kept Hy _ IH]; intros x.
  - split; [intros H; inversion H | intros [H _]; inversion H].
  - rewrite !elem_of_cons, IH. split.
    + intros [->|[? ?]]; auto.
    + intros [[->|?] ?]; auto.
  - rewrite elem_of_cons, IH. split.
    + intros [? ?]; auto.
    + intros [[->|?] ?]; [contradiction | auto].
Qed.

(* ===================================================================== *)
(** * The status mapper *)
(* ===================================================================== *)

Section StatusMapper.
Import Types N8NClient.

(** C1, as the specification words it, does not hold: the empty string
    is a non-null stop timestamp, and it is falsy, so the status falls
    through to the finished flag. *)
Lemma mapN8NStatus_empty_stop_timestamp :
  ~ (forall (finished : bool) (stoppedAt : option string),
       stoppedAt <> None -> mapN8NStatus finished stoppedAt = failed).
Proof.
  intros H.
  assert (E : mapN8NStatus true (Some ""%string) = failed) by (apply H; discriminate).
  discriminate E.
Qed.

(** C1 (amended). The mapped status is [failed] if the stop timestamp is
    a non-empty string, whatever the finished flag; otherwise, the stop
    timestamp being null or the empty string, it is [completed] if the
    finished flag is set and [processing] if it is not. *)
Theorem mapN8NStatus_spec (finished : bool) (stoppedAt : option string) :
  (forall s, stoppedAt = Some s -> s <> ""%string ->
     mapN8NStatus finished stoppedAt = failed) /\
  (stoppedAt = None \/ stoppedAt = Some ""%string ->
     finished = true -> mapN8NStatus finished stoppedAt = completed) /\
  (stoppedAt = None \/ stoppedAt = Some ""%string ->
     finished = false -> mapN8NStatus finished stoppedAt = processing).
Proof.
  unfold mapN8NStatus. repeat split.
  - intros s -> Hs. destruct s; [contradiction | reflexivity].
  - intros [-> | ->] ->; reflexivity.
  - intros [-> | ->] ->; reflexivity.
Qed.

Lemma mapN8NStatus_spec_witness :
  mapN8NStatus true (Some "2024-05-01T10:00:00.000Z"%string) = failed /\
  mapN8NStatus true None = completed /\
  mapN8NStatus false (Some ""%string) = processing.
Proof.
  split; [| split].
  - apply (proj1 (mapN8NStatus_spec true (Some "2024-05-01T10:00:00.000Z"%string))
             "2024-05-01T10:00:00.000Z"%string eq_refl).
    discriminate.
  - apply (proj1 (proj2 (mapN8NStatus_spec true None))); [left|]; reflexivity.
  - apply (proj2 (proj2 (mapN8NStatus_spec false (Some ""%string))));
      [right|]; reflexivity.
Defined.

(** C10. In the record [getExecutionStatus] returns, [results] is present
    only when the mapped status is [completed], and [error] is present
    only when it is [failed]. *)
Theorem getExecutionStatus_results_error_gated
    {Remote : Type} (http : Http Remote)
    (executionId : string) (w w' : Remote) (st : ProcessingStatus) :
  getExecutionStatus http executionId w = (w', inr st) ->
  (results st <> None -> status st = completed) /\
  (status_error st <> None -> status st = failed).
Proof.
  unfold getExecutionStatus.
  destruct (get_execution http w executionId) as [w1 [error | execution]];
    intros H; inversion H; subst; clear H.
  unfold statusOf, mapN8NStatus; cbn.
  destruct (finished execution), (JS.truthy (stoppedAt execution)); cbn;
    split; intros H; congruence.
Qed.

Lemma getExecutionStatus_results_error_gated_witness :
  let st := statusOf "7" (Sample.execution_with true None
                            (Some ["Process Input Files"%string]) None
                            (Some Sample.story)) in
  (results st <> None -> status st = completed) /\
  (status_error st <> None -> status st = failed).
Proof.
  intros st.
  exact (getExecutionStatus_results_error_gated
           (Sample.answering
              (Sample.execution_with true None
                 (Some ["Process Input Files"%string]) None (Some Sample.story)))
           "7" tt tt st eq_refl).
Defined.

End StatusMapper.

(* ===================================================================== *)
(** * Progress *)
(* ===================================================================== *)

Section Progress.
Import Types N8NClient.

(** The double [calculateProgress] returns, in closed form: below ten
    nodes the quotient and the product round to the exact multiple of
    ten, from ten nodes on the result is clamped. *)
Lemma calculateProgress_closed (execution : Execution) :
  calculateProgress execution =
  JS.num_of_Z (Z.min 100 (10 * Z.of_nat (completedNodeCount execution))).
Proof.
  unfold calculateProgress, completedNodeCount.
  destruct (runData_of execution) as [keys|]; [|reflexivity].
  cbv zeta. destruct (le_lt_dec 10 (length keys)) as [Hge|Hlt].
  - rewrite progress_clamped by assumption. now rewrite Z.min_l by lia.
  - set (n := length keys) in *. clearbody n.
    do 10 (destruct n as [|n]; [vm_compute; reflexivity|]). lia.
Qed.

Lemma num_leb_tens (i j : nat) :
  (i <= j <= 10)%nat ->
  JS.num_leb (JS.num_of_Z (10 * Z.of_nat i)) (JS.num_of_Z (10 * Z.of_nat j)) = true.
Proof.
  intros H.
  do 11 (destruct i as [|i];
         [do 11 (destruct j as [|j]; [first [lia | vm_compute; reflexivity]|]); lia|]).
  lia.
Qed.

Lemma min_hundred_tens (n : nat) :
  Z.min 100 (10 * Z.of_nat n) = 10 * Z.of_nat (Nat.min 10 n).
Proof. lia. Qed.

(** C2. The progress of a record with run data is the double whose value
    is min(100, 100 * completedNodeCount / expectedNodeCount) with
    expectedNodeCount = 10, and the progress of a record without run
    data is 0. *)
Theorem calculateProgress_formula (execution : Execution) :
  match runData_of execution with
  | None => calculateProgress execution = JS.num_of_Z 0
  | Some keys =>
      exists q : Q,
        JS.num_to_Q (calculateProgress execution) = Some q /\
        (q == Qmin 100 (100 * inject_Z (Z.of_nat (length keys)) / 10))%Q
  end.
Proof.
  pose proof (calculateProgress_closed execution) as Hc.
  unfold completedNodeCount in Hc.
  destruct (runData_of execution) as [keys|]; [|exact Hc].
  rewrite Hc. set (n := length keys). clearbody n. clear Hc.
  destruct (le_lt_dec 10 n) as [Hge|Hlt].
  - rewrite Z.min_l by lia. eexists. split; [vm_compute; reflexivity|].
    rewrite Q.min_l; [vm_compute; reflexivity|].
    assert (H : (inject_Z 10 <= inject_Z (Z.of_nat n))%Q) by (rewrite <- Zle_Qle; lia).
    revert H. generalize (inject_Z (Z.of_nat n)). intros x Hx.
    change (inject_Z 10) with 10%Q in Hx.
    assert (E : (100 * x / 10 == 10 * x)%Q) by field.
    rewrite E. lra.
  - do 10 (destruct n as [|n];
           [eexists; split; vm_compute; reflexivity|]).
    lia.
Qed.

(** C9. A record with at least as many completed nodes has at least as
    much progress, and no progress exceeds 100. *)
Theorem calculateProgress_monotone_clamped :
  (forall e1 e2 : Execution,
     (completedNodeCount e1 <= completedNodeCount e2)%nat ->
     JS.num_leb (calculateProgress e1) (calculateProgress e2) = true) /\
  (forall e : Execution,
     JS.num_leb (calculateProgress e) (JS.num_of_Z 100) = true).
Proof.
  split.
  - intros e1 e2 H. rewrite !calculateProgress_closed, !min_hundred_tens.
    apply num_leb_tens. lia.
  - intros e. rewrite calculateProgress_closed, min_hundred_tens.
    apply (num_leb_tens _ 10). lia.
Qed.

Lemma calculateProgress_monotone_clamped_witness :
  let ran keys := Sample.execution_with false None (Some keys) None None in
  JS.num_leb
    (calculateProgress (ran ["Upload Interviews Webhook"; "Process Input Files"]%string))
    (calculateProgress (ran ["Upload Interviews Webhook"; "Process Input Files";
                             "Transcribe with Whisper"]%string)) = true.
Proof.
  intros ran.
  apply (proj1 calculateProgress_monotone_clamped
           (ran ["Upload Interviews Webhook"; "Process Input Files"]%string)
           (ran ["Upload Interviews Webhook"; "Process Input Files";
                 "Transcribe with Whisper"]%string)).
  vm_compute. lia.
Defined.

End Progress.

(* ===================================================================== *)
(** * The current-step label *)
(* ===================================================================== *)

Section CurrentStep.
Import Types N8NClient.

Lemma own_property_Some (o : list (string * string)) (k v : string) :
  JS.own_property o k = Some v -> (k, v) ∈ o.
Proof.
  unfold JS.own_property. induction o as [|[k' v'] o IH]; cbn; [discriminate|].
  destruct (String.eqb_spec k' k) as [->|Hne]; cbn.
  - intros [= ->]. apply elem_of_cons. now left.
  - intros H. apply elem_of_cons. right. now apply IH.
Qed.

Lemma own_property_None (o : list (string * string)) (k : string) :
  (forall v, (k, v) ∉ o) -> JS.own_property o k = None.
Proof.
  intros H. destruct (JS.own_property o k) as [v|] eqn:E; [|reflexivity].
  apply own_property_Some in E. now destruct (H v).
Qed.

Lemma inherited_spec (k : string) :
  existsb (String.eqb k) JS.Object_prototype = true <-> k ∈ JS.Object_prototype.
Proof.
  rewrite existsb_exists. split.
  - intros (x & Hx & E). apply String.eqb_eq in E as ->. now apply list_elem_of_In.
  - intros H. exists k. split; [now apply list_elem_of_In | apply String.eqb_refl].
Qed.

(** What [getCurrentStep] answers, by cases on the key of the node that
    completed last: a name of the table gives its label; a name that is
    neither in the table nor a member of [Object.prototype] gives
    'Processing...'; a member name gives that member. *)
Lemma getCurrentStep_cases (execution : Execution) :
  match runData_of execution with
  | None => getCurrentStep execution = JS.VString "Starting..."
  | Some completedNodes =>
      let lastNode := JS.property_key (last completedNodes) in
      (forall label, (lastNode, label) ∈ stepMap ->
         getCurrentStep execution = JS.VString label) /\
      ((forall label, (lastNode, label) ∉ stepMap) ->
         lastNode ∉ JS.Object_prototype ->
         getCurrentStep execution = JS.VString "Processing...") /\
      ((forall label, (lastNode, label) ∉ stepMap) ->
         lastNode ∈ JS.Object_prototype ->
         getCurrentStep execution = JS.VInherited lastNode)
  end.
Proof.
  unfold getCurrentStep.
  destruct (runData_of execution) as [completedNodes|]; [|reflexivity].
  cbv zeta. generalize (JS.property_key (last completedNodes)). intros k.
  split; [|split].
  - intros label H. unfold stepMap in H.
    repeat (apply elem_of_cons in H as [[= -> ->] | H]; [reflexivity|]).
    inversion H.
  - intros Hout Hproto. unfold JS.get. rewrite own_property_None by assumption.
    destruct (existsb _ _) eqn:E; [|reflexivity].
    apply inherited_spec in E. contradiction.
  - intros Hout Hproto. unfold JS.get. rewrite own_property_None by assumption.
    apply inherited_spec in Hproto. now rewrite Hproto.
Qed.

(** C3 fails on the code.  The run data below ends with a node named
    [constructor]; the name is not in the table, yet the label is not
    'Processing...' but the member of that name every object literal
    inherits, which is not a string. *)
Theorem getCurrentStep_inherited_member :
  let execution :=
    Sample.execution_with false None
      (Some ["Process Input Files"; "constructor"]%string) None None in
  (forall label, ("constructor"%string, label) ∉ stepMap) /\
  getCurrentStep execution = JS.VInherited "constructor" /\
  getCurrentStep execution <> JS.VString "Processing...".
Proof.
  cbv zeta. split; [|split].
  - intros label H. unfold stepMap in H.
    repeat (apply elem_of_cons in H as [[=] | H]). inversion H.
  - vm_compute. reflexivity.
  - vm_compute. discriminate.
Qed.

End CurrentStep.

(* ===================================================================== *)
(** * Uploads *)
(* ===================================================================== *)

Section Uploads.
Import Types N8NClient.
Context {Remote : Type} (http : Http Remote).


(** A successful batch answers one path per file. *)
Lemma uploadFiles_from_length (files : list MulterFile) :
  forall (acc paths : list string) (w w1 : Remote),
    uploadFiles_from http acc files w = (w1, inr paths) ->
    length paths = (length acc + length files)%nat.
Proof.
  induction files as [|file files IH]; intros acc paths w w1; cbn.
  - intros [= _ ->]. lia.
  - destruct (post_upload_file http w file) as [w' [error|filepath]];
      [discriminate|].
    intros H. apply IH in H. rewrite length_app in H. cbn in H. lia.
Qed.


(** Every batch either goes through, or stops at the first file whose
    upload fails, with that file named: there is no third outcome. *)
Lemma uploadFiles_from_outcome (files : list MulterFile) :
  forall (acc : list string) (w : Remote),
    (exists w' paths, uploadFiles_from http acc files w = (w', inr paths)) \/
    (exists i file w1 w2 paths error,
       files !! i = Some file /\
       uploadFiles_from http acc (take i files) w = (w1, inr paths) /\
       post_upload_file http w1 file = (w2, inl error) /\
       uploadFiles_from http acc files w =
         (w2, inl (JS.new_Error ("Failed to upload file " +:+ originalname file
                                   +:+ ": " +:+ JS.toString error)))).
Proof.
  induction files as [|file files IH]; intros acc w.
  - left. now exists w, acc.
  - cbn [uploadFiles_from].
    destruct (post_upload_file http w file) as [w' [error|filepath]] eqn:Hpost.
    + right. exists 0%nat, file, w, w', acc, error. repeat split; assumption.
    + destruct (IH (acc ++ [filepath]) w') as [Hok | Hstop]; [now left|].
      destruct Hstop as (i & f & w1 & w2 & paths & error & Hi & Hbefore & Hfail & Hres).
      right. exists (S i), f, w1, w2, paths, error. repeat split; try assumption.
      cbn [take uploadFiles_from]. now rewrite Hpost.
Qed.

End Uploads.

Section UploadTool.
Import Types N8NClient StorytellingTools.
Context {Remote : Type} (http : Http Remote).
Context (Buffer_from_base64 : string -> list Byte.byte).


(** The description of the uploaded files never reads beyond [files]:
    a batch that went through is answered with [success]. *)
Lemma uploaded_from_total (files : list Args.File) (paths : list string) :
  forall index : nat,
    (index + length paths <= length files)%nat ->
    exists described,
      uploaded_from index files (multerFiles_of Buffer_from_base64 files) paths
      = inr described /\ length described = length paths.
Proof.
  induction paths as [|path paths IH]; intros index Hlen; cbn.
  - now exists [].
  - cbn in Hlen.
    destruct (lookup_lt_is_Some_2 files index ltac:(lia)) as [file Hfile].
    rewrite Hfile. unfold multerFiles_of at 1. rewrite list_lookup_fmap, Hfile. cbn.
    destruct (IH (S index) ltac:(lia)) as (described & -> & Hd).
    eexists. split; [reflexivity|]. cbn. now rewrite Hd.
Qed.

Lemma executeUploadFiles_success
    (files : list Args.File) (this : Tools) (w w' : Remote) (paths : list string) :
  uploadFiles http (multerFiles_of Buffer_from_base64 files) w = (w', inr paths) ->
  exists described,
    executeUploadFiles http Buffer_from_base64 files this w =
      (this, w', success ("Files uploaded successfully"%string, described)) /\
    length described = length files.
Proof.
  intros Hup. unfold executeUploadFiles. rewrite Hup.
  pose proof (uploadFiles_from_length http _ _ _ _ _ Hup) as Hlen.
  unfold multerFiles_of in Hlen at 1. rewrite length_fmap in Hlen. cbn in Hlen.
  destruct (uploaded_from_total files paths 0 ltac:(lia)) as (described & -> & Hd).
  exists described. split; [reflexivity | lia].
Qed.

End UploadTool.


(* ===================================================================== *)
(** * Insights *)
(* ===================================================================== *)

Section Insights.
Import Types N8NClient StorytellingTools.
Context {Remote : Type} (http : Http Remote).

(** What [executeGetInsights] does once the engine has answered with a
    finished, not stopped execution that carries data. *)
Lemma executeGetInsights_completed
    (args : Args.GetInsights) (this : Tools) (w w' : Remote)
    (execution : Execution) (d : ExecutionData) :
  get_execution http w (Args.jobId args) = (w', inr execution) ->
  finished execution = true ->
  JS.truthy (stoppedAt execution) = false ->
  data execution = Some d ->
  executeGetInsights http args this w =
    match select_insights (default "all"%string (Args.insightType args)) (analysis d) with
    | inr insights => (this, w', success insights)
    | inl error => (this, w', failure ("Failed to get insights: " +:+ JS.message error))
    end.
Proof.
  intros Hget Hfin Hstop Hdata.
  unfold executeGetInsights, getExecutionStatus. rewrite Hget.
  unfold statusOf, mapN8NStatus. cbn. now rewrite Hfin, Hstop, Hdata.
Qed.

(** C5. For a completed analysis, [get_story_insights] with insightType
    'transformation' answers exactly: the plot entries whose significance
    contains "transformation", each person as {character, transformation},
    and the soundbites whose emotionalImpact is strictly greater than 7. *)
Theorem transformation_insights_exact
    (args : Args.GetInsights) (this : Tools) (w w' : Remote)
    (execution : Execution) (d : ExecutionData) (a : StoryAnalysis) :
  Args.insightType args = Some "transformation"%string ->
  get_execution http w (Args.jobId args) = (w', inr execution) ->
  finished execution = true ->
  JS.truthy (stoppedAt execution) = false ->
  data execution = Some d ->
  analysis d = JS.present a ->
  exists insights : TransformationInsights,
    executeGetInsights http args this w =
      (this, w', success (OfTransformation insights)) /\
    option_Forall2
      (selected (fun p => contains (plot_significance p) "transformation"))
      (plot a) (transformationMoments insights) /\
    keyCharacterArcs insights =
      (map (fun person => {| character := person_name person;
                             transformation := person_significance person |})
         <$> people a) /\
    option_Forall2
      (selected (fun s => exceeds 7 (emotionalImpact s)))
      (soundbites a) (emotionalHighpoints insights).
Proof.
  intros Htype Hget Hfin Hstop Hdata Han.
  rewrite (executeGetInsights_completed args this w w' execution d Hget Hfin Hstop Hdata).
  rewrite Htype, Han. cbn. eexists. split; [reflexivity|]. cbn.
  split; [|split; [reflexivity|]].
  - destruct (plot a) as [events|]; constructor.
    apply filter_selected. intros p. apply includes_spec.
  - destruct (soundbites a) as [bites|]; constructor.
    apply filter_selected. intros s. reflexivity.
Qed.

(** C6. For a completed analysis, [get_story_insights] with insightType
    'all' (also when it is left out) answers the analysis object of the
    source as it is, with its people, places, purpose, plot and
    soundbites. *)
Theorem all_insights_unmodified
    (args : Args.GetInsights) (this : Tools) (w w' : Remote)
    (execution : Execution) (d : ExecutionData) (a : StoryAnalysis) :
  default "all"%string (Args.insightType args) = "all"%string ->
  get_execution http w (Args.jobId args) = (w', inr execution) ->
  finished execution = true ->
  JS.truthy (stoppedAt execution) = false ->
  data execution = Some d ->
  analysis d = JS.present a ->
  exists returned : StoryAnalysis,
    executeGetInsights http args this w =
      (this, w', success (OfAnalysis (JS.present returned))) /\
    returned = a /\
    people returned = people a /\ places returned = places a /\
    purpose returned = purpose a /\ plot returned = plot a /\
    soundbites returned = soundbites a.
Proof.
  intros Htype Hget Hfin Hstop Hdata Han.
  rewrite (executeGetInsights_completed args this w w' execution d Hget Hfin Hstop Hdata).
  rewrite Htype, Han. cbn. exists a. repeat split; reflexivity.
Qed.

End Insights.

Lemma transformation_insights_exact_witness :
  exists insights : StorytellingTools.TransformationInsights,
    StorytellingTools.executeGetInsights
      (Sample.answering (Sample.execution_with true None (Some []) None (Some Sample.story)))
      {| StorytellingTools.Args.jobId := "42";
         StorytellingTools.Args.insightType := Some "transformation"%string |}
      Sample.no_tools tt =
      (Sample.no_tools, tt,
       StorytellingTools.success (StorytellingTools.OfTransformation insights)) /\
    option_Forall2
      (selected (fun p => contains (Types.plot_significance p) "transformation"))
      (Types.plot Sample.story) (StorytellingTools.transformationMoments insights) /\
    StorytellingTools.keyCharacterArcs insights =
      (map (fun person =>
              {| StorytellingTools.character := Types.person_name person;
                 StorytellingTools.transformation := Types.person_significance person |})
         <$> Types.people Sample.story) /\
    option_Forall2
      (selected (fun s => exceeds 7 (Types.emotionalImpact s)))
      (Types.soundbites Sample.story) (StorytellingTools.emotionalHighpoints insights).
Proof.
  exact (transformation_insights_exact
           (Sample.answering
              (Sample.execution_with true None (Some []) None (Some Sample.story)))
           {| StorytellingTools.Args.jobId := "42";
              StorytellingTools.Args.insightType := Some "transformation"%string |}
           Sample.no_tools tt tt
           (Sample.execution_with true None (Some []) None (Some Sample.story))
           (Sample.data_with (Some []) None (Some Sample.story))
           Sample.story eq_refl eq_refl eq_refl eq_refl eq_refl eq_refl).
Defined.

Lemma all_insights_unmodified_witness :
  exists returned : Types.StoryAnalysis,
    StorytellingTools.executeGetInsights
      (Sample.answering (Sample.execution_with true None (Some []) None (Some Sample.story)))
      {| StorytellingTools.Args.jobId := "42";
         StorytellingTools.Args.insightType := Some "all"%string |}
      Sample.no_tools tt =
      (Sample.no_tools, tt,
       StorytellingTools.success (StorytellingTools.OfAnalysis (JS.present returned))) /\
    returned = Sample.story /\
    Types.people returned = Types.people Sample.story /\
    Types.places returned = Types.places Sample.story /\
    Types.purpose returned = Types.purpose Sample.story /\
    Types.plot returned = Types.plot Sample.story /\
    Types.soundbites returned = Types.soundbites Sample.story.
Proof.
  exact (all_insights_unmodified
           (Sample.answering
              (Sample.execution_with true None (Some []) None (Some Sample.story)))
           {| StorytellingTools.Args.jobId := "42";
              StorytellingTools.Args.insightType := Some "all"%string |}
           Sample.no_tools tt tt
           (Sample.execution_with true None (Some []) None (Some Sample.story))
           (Sample.data_with (Some []) None (Some Sample.story))
           Sample.story eq_refl eq_refl eq_refl eq_refl eq_refl eq_refl).
Defined.

(* ===================================================================== *)
(** * Get status *)
(* ===================================================================== *)

Section GetStatus.
Import Types N8NClient StorytellingTools.

(** C7, as the specification words it, does not hold: with [stoppedAt]
    set to the empty string the execution is not taken as stopped, the
    status is not [failed] and the engine's message is dropped. *)
Lemma getStatus_empty_stop_timestamp :
  ~ (forall (execution : Execution) (s m jobId : string) (this : Tools),
       stoppedAt execution = Some s ->
       JS.chain (JS.chain (data execution) resultData) error_message = Some m ->
       exists progress step,
         (executeGetStatus (Sample.answering execution) jobId this tt).2 =
         success (WithError failed progress step (Some m))).
Proof.
  intros H.
  destruct (H (Sample.execution_with false (Some ""%string) None
                 (Some "disk full"%string) None)
              ""%string "disk full"%string "42"%string Sample.no_tools
              eq_refl eq_refl) as (progress & step & E).
  vm_compute in E. discriminate E.
Qed.

(** C7 (amended). For an execution record whose [stoppedAt] is a
    non-empty string and whose [data.resultData.error.message] is a
    string [m], get-status answers the status [failed] and the error
    [m], the engine's own message unchanged. *)
Theorem getStatus_surfaces_engine_error
    {Remote : Type} (http : Http Remote)
    (jobId : string) (this : Tools) (w w' : Remote)
    (execution : Execution) (s m : string) :
  get_execution http w jobId = (w', inr execution) ->
  stoppedAt execution = Some s ->
  s <> ""%string ->
  JS.chain (JS.chain (data execution) resultData) error_message = Some m ->
  executeGetStatus http jobId this w =
    ({| jobs := <[jobId := statusOf jobId execution]> (jobs this) |}, w',
     success (WithError failed (calculateProgress execution)
                (getCurrentStep execution) (Some m))).
Proof.
  intros Hget Hstop Hs Hm.
  assert (Ht : JS.truthy (stoppedAt execution) = true).
  { rewrite Hstop. destruct s; [contradiction | reflexivity]. }
  unfold executeGetStatus, getExecutionStatus. rewrite Hget.
  unfold statusOf at 2 3 4 5 6 7. cbn.
  unfold mapN8NStatus. rewrite Ht, Hm. reflexivity.
Qed.

Lemma getStatus_surfaces_engine_error_witness :
  let execution :=
    Sample.execution_with false (Some "2024-05-01T10:00:00.000Z"%string)
      (Some ["Process Input Files"%string]) (Some "disk full"%string) None in
  executeGetStatus (Sample.answering execution) "42" Sample.no_tools tt =
    ({| jobs := <["42"%string := statusOf "42" execution]> (jobs Sample.no_tools) |}, tt,
     success (WithError failed (calculateProgress execution)
                (getCurrentStep execution) (Some "disk full"%string))).
Proof.
  intros execution.
  apply (getStatus_surfaces_engine_error (Sample.answering execution)
           "42" Sample.no_tools tt tt execution
           "2024-05-01T10:00:00.000Z" "disk full" eq_refl eq_refl);
    [discriminate | reflexivity].
Defined.

End GetStatus.

(* ===================================================================== *)
(** * Start analysis *)
(* ===================================================================== *)

Section StartAnalysis.
Import Types N8NClient StorytellingTools.

(** A request is built unless [outputOptions] is [null]; its parts are
    the ones the source names. *)
Lemma request_of_built (args : Args.StartAnalysis) :
  match Args.outputOptions args with
  | JS.absent JS.null =>
      request_of args = inl (JS.TypeError_reading JS.null "createSpreadsheet")
  | given =>
      let o := match given with JS.present o => o | JS.absent _ => no_options end in
      request_of args =
        inr {| files := files_of_urls (Args.fileUrls args);
               themes :=
                 map (fun theme =>
                        {| theme_name := Args.name theme;
                           description := Some (JS.or_string (Args.description theme) "");
                           priority := JS.or_string (Args.priority theme) "medium" |})
                     (Args.themes args);
               outputOptions :=
                 {| createSpreadsheet := not_false (Args.createSpreadsheet o);
                    createSummary := not_false (Args.createSummary o);
                    createVideoClips := not_false (Args.createVideoClips o);
                    language := Some (JS.or_string (Args.language o) "en") |} |}
  end.
Proof.
  unfold request_of. destruct (Args.outputOptions args) as [o|[|]]; reflexivity.
Qed.

Lemma request_of_files (args : Args.StartAnalysis) (request : StoryAnalysisRequest) :
  request_of args = inr request ->
  files request = files_of_urls (Args.fileUrls args).
Proof.
  pose proof (request_of_built args) as H.
  destruct (Args.outputOptions args) as [o|[|]]; cbv zeta in H; rewrite H;
    intros [= <-]; reflexivity.
Qed.

(** [executeStartAnalysis] posts the request it built, and nothing else. *)
Lemma executeStartAnalysis_posts
    {Remote : Type} (http : Http Remote)
    (args : Args.StartAnalysis) (this : Tools) (w : Remote)
    (request : StoryAnalysisRequest) :
  request_of args = inr request ->
  executeStartAnalysis http args this w =
    match post_storytelling_analysis http w request with
    | (w', inr executionId) =>
        ({| jobs :=
              <[executionId :=
                  {| jobId := executionId; status := pending;
                     progress := JS.num_of_Z 0;
                     currentStep := JS.VString "Initializing analysis...";
                     results := None; status_error := None |}]> (jobs this) |},
         w',
         success {| started_jobId := executionId;
                    started_message := "Storytelling analysis started successfully";
                    estimatedDuration := "10-30 minutes depending on file sizes";
                    started_themes := map Args.name (Args.themes args);
                    fileCount := length (Args.fileUrls args) |})
    | (w', inl error) =>
        (this, w',
         failure ("Failed to start analysis: Failed to start storytelling workflow: "
                    +:+ JS.toString error))
    end.
Proof.
  intros Hrequest. unfold executeStartAnalysis, startStorytellingWorkflow.
  rewrite Hrequest.
  destruct (post_storytelling_analysis http w request)
    as [w' [error|executionId]]; [reflexivity|].
  cbn. rewrite (request_of_files args request Hrequest).
  unfold files_of_urls. now rewrite length_imap.
Qed.

Lemma split_nonempty (sep : ascii) (s : string) : JS.split sep s <> [].
Proof.
  destruct s as [|c s]; cbn [JS.split]; [discriminate|].
  destruct (Ascii.eqb c sep); [discriminate|].
  destruct (JS.split sep s); discriminate.
Qed.

Lemma split_app (sep : ascii) (b : string) : forall a : string,
  JS.split sep (a +:+ String sep b) = JS.split sep a ++ JS.split sep b.
Proof.
  induction a as [|c a IH].
  - change ("" +:+ String sep b)%string with (String sep b).
    cbn [JS.split app]. now rewrite Ascii.eqb_refl.
  - change (String c a +:+ String sep b) with (String c (a +:+ String sep b)).
    cbn [JS.split]. rewrite IH.
    destruct (Ascii.eqb c sep); [reflexivity|].
    pose proof (split_nonempty sep a) as Hne.
    destruct (JS.split sep a) as [|h t]; [contradiction | reflexivity].
Qed.

Lemma split_no_separator (sep : ascii) (s : string) :
  (forall c, c ∈ list_ascii_of_string s -> c <> sep) -> JS.split sep s = [s].
Proof.
  induction s as [|c s IH]; intros Hs; [reflexivity|]. cbn [JS.split].
  destruct (Ascii.eqb_spec c sep) as [->|_].
  - exfalso. apply (Hs sep); [|reflexivity]. cbn. apply elem_of_cons. now left.
  - rewrite IH; [reflexivity|]. intros c' Hc'. apply Hs. cbn.
    apply elem_of_cons. now right.
Qed.

(** The last segment of a split is what follows the last separator. *)
Lemma pop_split_app (sep : ascii) (stem ext : string) :
  (forall c, c ∈ list_ascii_of_string ext -> c <> sep) ->
  JS.pop (JS.split sep (stem +:+ String sep ext)) = Some ext.
Proof.
  intros Hext. unfold JS.pop.
  rewrite split_app, last_app, (split_no_separator sep ext Hext). reflexivity.
Qed.

Lemma or_string_empty (s : string) : JS.or_string (Some s) "" = s.
Proof. now destruct s. Qed.

(** The mime type by cases on the lower-cased extension: an extension of
    the table gives its type; one that is neither in the table nor a
    member of [Object.prototype] gives the generic binary type; a member
    name ([constructor], [__proto__]) gives that member. *)
Lemma getMimeTypeFromUrl_cases (url ext : string) :
  JS.pop (JS.split "." url) = Some ext ->
  let key := JS.toLowerCase ext in
  (forall mime, (key, mime) ∈ mimeMap -> getMimeTypeFromUrl url = JS.VString mime) /\
  ((forall mime, (key, mime) ∉ mimeMap) -> key ∉ JS.Object_prototype ->
     getMimeTypeFromUrl url = JS.VString "application/octet-stream") /\
  ((forall mime, (key, mime) ∉ mimeMap) -> key ∈ JS.Object_prototype ->
     getMimeTypeFromUrl url = JS.VInherited key).
Proof.
  intros Hpop. unfold getMimeTypeFromUrl. rewrite Hpop.
  cbn [fmap option_fmap option_map]. rewrite or_string_empty.
  generalize (JS.toLowerCase ext). intros key. cbv zeta.
  split; [|split].
  - intros mime H. unfold mimeMap in H.
    repeat (apply elem_of_cons in H as [[= -> ->] | H]; [reflexivity|]).
    inversion H.
  - intros Hout Hproto. unfold JS.get. rewrite own_property_None by assumption.
    destruct (existsb _ _) eqn:E; [|reflexivity].
    apply inherited_spec in E. contradiction.
  - intros Hout Hproto. unfold JS.get. rewrite own_property_None by assumption.
    apply inherited_spec in Hproto. now rewrite Hproto.
Qed.

(** C8 fails on the code, in its clause on unknown extensions.  The
    scenario itself is as the claim says: themes [{name: "Family"}] and
    fileUrls ["a.mp4", "b.mp3"] give exactly two MediaFile entries, of
    mime types video/mp4 and audio/mp3 in this order, read off the
    fixed table, and the output options left out default to
    createSpreadsheet, createSummary and createVideoClips all true and
    language "en"; that is the request the tool posts.  But an unknown
    extension does not always get application/octet-stream: with the
    second URL replaced by "take.constructor", whose extension is not in
    the table, the second MediaFile carries as mime type the member
    [constructor] every object literal inherits, which is not a
    string. *)
Theorem startAnalysis_mime_inherited_member :
  let family := [ {| Args.name := "Family"; Args.description := None;
                     Args.priority := None |} ] in
  let scenario :=
    {| Args.themes := family; Args.outputOptions := JS.absent JS.undefined;
       Args.fileUrls := ["a.mp4"; "b.mp3"]%string |} in
  let args :=
    {| Args.themes := family; Args.outputOptions := JS.absent JS.undefined;
       Args.fileUrls := ["a.mp4"; "take.constructor"]%string |} in
  (exists request,
     request_of scenario = inr request /\
     files request =
       [ {| filename := "interview_1.mp4"; filepath := "a.mp4";
            size := JS.num_of_Z 0; mimeType := JS.VString "video/mp4";
            duration := None |};
         {| filename := "interview_2.mp3"; filepath := "b.mp3";
            size := JS.num_of_Z 0; mimeType := JS.VString "audio/mp3";
            duration := None |} ] /\
     outputOptions request =
       {| createSpreadsheet := true; createSummary := true;
          createVideoClips := true; language := Some "en"%string |} /\
     themes request =
       [ {| theme_name := "Family"; description := Some ""%string;
            priority := "medium" |} ] /\
     forall (Remote : Type) (http : Http Remote) (this : Tools) (w : Remote),
       (executeStartAnalysis http scenario this w).1.2 =
       (post_storytelling_analysis http w request).1) /\
  JS.get mimeMap "mp4" = Some (JS.VString "video/mp4") /\
  JS.get mimeMap "mp3" = Some (JS.VString "audio/mp3") /\
  (forall mime, ("constructor"%string, mime) ∉ mimeMap) /\
  getMimeTypeFromUrl "take.constructor" = JS.VInherited "constructor" /\
  getMimeTypeFromUrl "take.constructor" <> JS.VString "application/octet-stream" /\
  (exists request,
     request_of args = inr request /\
     files request =
       [ {| filename := "interview_1.mp4"; filepath := "a.mp4";
            size := JS.num_of_Z 0; mimeType := JS.VString "video/mp4";
            duration := None |};
         {| filename := "interview_2.constructor"; filepath := "take.constructor";
            size := JS.num_of_Z 0; mimeType := JS.VInherited "constructor";
            duration := None |} ] /\
     forall (Remote : Type) (http : Http Remote) (this : Tools) (w : Remote),
       (executeStartAnalysis http args this w).1.2 =
       (post_storytelling_analysis http w request).1).
Proof.
  assert (Hposted :
    forall (args : Args.StartAnalysis) (request : StoryAnalysisRequest),
      request_of args = inr request ->
      forall (Remote : Type) (http : Http Remote) (this : Tools) (w : Remote),
        (executeStartAnalysis http args this w).1.2 =
        (post_storytelling_analysis http w request).1).
  { intros args request Hrequest Remote http this w.
    rewrite (executeStartAnalysis_posts http args this w request Hrequest).
    destruct (post_storytelling_analysis http w request) as [w' [error|executionId]];
      reflexivity. }
  cbv zeta. split; [|split; [|split; [|split; [|split; [|split]]]]].
  - eexists. split; [reflexivity|].
    split; [vm_compute; reflexivity|].
    split; [vm_compute; reflexivity|].
    split; [vm_compute; reflexivity|].
    apply Hposted. reflexivity.
  - reflexivity.
  - reflexivity.
  - intros mime H. unfold mimeMap in H.
    repeat (apply elem_of_cons in H as [[=] | H]). inversion H.
  - vm_compute. reflexivity.
  - vm_compute. discriminate.
  - eexists. split; [reflexivity|].
    split; [vm_compute; reflexivity|].
    apply Hposted. reflexivity.
Qed.

End StartAnalysis.

(* ===================================================================== *)
(** * Get status: the job cache and the three answers *)
(* ===================================================================== *)

Section GetStatusCache.
Import Types N8NClient StorytellingTools.
Context {Remote : Type} (http : Http Remote).

(** Whatever [executeGetStatus] answers once the engine has answered,
    the cache it leaves is the old one with the polled status written
    at [jobId]. *)
Lemma executeGetStatus_cache
    (jobId : string) (this : Tools) (w w' : Remote) (execution : Execution) :
  get_execution http w jobId = (w', inr execution) ->
  (executeGetStatus http jobId this w).1.1 =
    {| jobs := <[jobId := statusOf jobId execution]> (jobs this) |}.
Proof.
  intros Hget. unfold executeGetStatus, getExecutionStatus. rewrite Hget.
  destruct (status (statusOf jobId execution)),
           (results (statusOf jobId execution)) as [res|];
    try reflexivity.
  destruct (generateResultSummary (analysis res)); reflexivity.
Qed.

(** X1. A poll the engine answers is written into the job cache under
    its job id, over whatever was there, also when the answer to the
    caller is a failure; every other job is left as it was. *)
Theorem executeGetStatus_caches_poll
    (jobId : string) (this : Tools) (w w' : Remote) (execution : Execution) :
  get_execution http w jobId = (w', inr execution) ->
  jobs (executeGetStatus http jobId this w).1.1 !! jobId
    = Some (statusOf jobId execution) /\
  (forall other : string, other <> jobId ->
     jobs (executeGetStatus http jobId this w).1.1 !! other = jobs this !! other).
Proof.
  intros Hget. rewrite (executeGetStatus_cache jobId this w w' execution Hget).
  cbn [jobs]. split.
  - apply lookup_insert_eq.
  - intros other Hne. apply lookup_insert_ne. congruence.
Qed.

(** X2. When the request for the execution throws, get-status and
    get-insights both answer [{success: false}] with the client's
    message inside the tool's, and the job cache is not touched. *)
Theorem fetch_failure_is_reported
    (args : Args.GetInsights) (this : Tools) (w w' : Remote) (error : JS.Error) :
  get_execution http w (Args.jobId args) = (w', inl error) ->
  executeGetStatus http (Args.jobId args) this w =
    (this, w',
     failure ("Failed to get status: Failed to get execution status: "
                +:+ JS.toString error)) /\
  executeGetInsights http args this w =
    (this, w',
     failure ("Failed to get insights: Failed to get execution status: "
                +:+ JS.toString error)).
Proof.
  intros Hget. unfold executeGetStatus, executeGetInsights, getExecutionStatus.
  rewrite Hget. split; reflexivity.
Qed.

(** X3. Get-status answers with results exactly when the execution is
    finished, not stopped, and carries data with an analysis; the answer
    then has the status [completed], the analysis and the deliverables
    of the data, and the summary computed from the analysis. *)
Theorem executeGetStatus_results_iff
    (jobId : string) (this : Tools) (w w' : Remote) (execution : Execution) :
  get_execution http w jobId = (w', inr execution) ->
  ((exists st p c r,
      (executeGetStatus http jobId this w).2 = success (WithResults st p c r)) <->
   (finished execution = true /\ JS.truthy (stoppedAt execution) = false /\
    exists d a, data execution = Some d /\ analysis d = JS.present a)) /\
  (forall st p c r,
     (executeGetStatus http jobId this w).2 = success (WithResults st p c r) ->
     st = completed /\ p = calculateProgress execution /\
     c = getCurrentStep execution /\
     exists d a,
       data execution = Some d /\ analysis d = JS.present a /\
       result_analysis r = JS.present a /\ result_deliverables r = deliverables d /\
       generateResultSummary (JS.present a) = inr (summary r)).
Proof.
  intros Hget.
  assert (Hcases :
    forall st p c r,
      (executeGetStatus http jobId this w).2 = success (WithResults st p c r) ->
      finished execution = true /\ JS.truthy (stoppedAt execution) = false /\
      st = completed /\ p = calculateProgress execution /\
      c = getCurrentStep execution /\
      exists d a,
        data execution = Some d /\ analysis d = JS.present a /\
        result_analysis r = JS.present a /\ result_deliverables r = deliverables d /\
        generateResultSummary (JS.present a) = inr (summary r)).
  { intros st p c r. unfold executeGetStatus, getExecutionStatus. rewrite Hget.
    unfold statusOf, mapN8NStatus. cbn.
    destruct (JS.truthy (stoppedAt execution)), (finished execution); cbn;
      try discriminate.
    destruct (data execution) as [d|]; [|discriminate].
    destruct (analysis d) as [a|n] eqn:Ha; cbn; [|discriminate].
    intros [= <- <- <- <-]. cbn. repeat split; try reflexivity.
    exists d, a. repeat split; try reflexivity. exact Ha. }
  split; [split|].
  - intros (st & p & c & r & H).
    destruct (Hcases st p c r H) as (Hf & Hs & _ & _ & _ & d & a & Hd & Ha & _).
    repeat split; try assumption. now exists d, a.
  - intros (Hf & Hs & d & a & Hd & Ha).
    unfold executeGetStatus, getExecutionStatus. rewrite Hget.
    unfold statusOf, mapN8NStatus. cbn. rewrite Hf, Hs, Hd. cbn. rewrite Ha. cbn.
    eauto.
  - intros st p c r H.
    destruct (Hcases st p c r H) as (_ & _ & H1 & H2 & H3 & H4). auto.
Qed.

(** X4. A finished, not stopped execution whose data carries no analysis
    ([analysis] missing, or [null]) makes get-status fail: the summary
    reads [soundbites] off the missing analysis, the [TypeError] is
    caught, and the answer is [{success: false}] with the runtime's
    message, which names [undefined] or [null] as the case may be, while
    the poll is already in the cache. *)
Theorem executeGetStatus_without_analysis
    (jobId : string) (this : Tools) (w w' : Remote)
    (execution : Execution) (d : ExecutionData) (n : JS.nothing) :
  get_execution http w jobId = (w', inr execution) ->
  finished execution = true ->
  JS.truthy (stoppedAt execution) = false ->
  data execution = Some d ->
  analysis d = JS.absent n ->
  executeGetStatus http jobId this w =
    ({| jobs := <[jobId := statusOf jobId execution]> (jobs this) |}, w',
     failure ("Failed to get status: Cannot read properties of "
                +:+ JS.nothing_name n +:+ " (reading 'soundbites')")).
Proof.
  intros Hget Hf Hs Hd Ha.
  unfold executeGetStatus, getExecutionStatus. rewrite Hget.
  unfold statusOf at 2 3. cbn. unfold mapN8NStatus.
  rewrite Hf, Hs, Hd. cbn. rewrite Ha. destruct n; reflexivity.
Qed.

End GetStatusCache.

Lemma executeGetStatus_caches_poll_witness :
  let execution :=
    Sample.execution_with false (Some "2024-05-01T10:00:00.000Z"%string)
      (Some ["Process Input Files"%string]) (Some "disk full"%string) None in
  let after :=
    (StorytellingTools.executeGetStatus (Sample.answering execution) "7"
       Sample.one_job tt).1.1 in
  StorytellingTools.jobs after !! "7"%string = Some (N8NClient.statusOf "7" execution) /\
  (forall other : string, other <> "7"%string ->
     StorytellingTools.jobs after !! other
     = StorytellingTools.jobs Sample.one_job !! other).
Proof.
  intros execution after.
  exact (executeGetStatus_caches_poll (Sample.answering execution) "7"
           Sample.one_job tt tt execution eq_refl).
Defined.

Lemma fetch_failure_is_reported_witness :
  let args := {| StorytellingTools.Args.jobId := "7";
                 StorytellingTools.Args.insightType := None |} in
  StorytellingTools.executeGetStatus Sample.refusing "7" Sample.one_job tt =
    (Sample.one_job, tt,
     StorytellingTools.failure
       "Failed to get status: Failed to get execution status: AxiosError: connect ECONNREFUSED 127.0.0.1:5678") /\
  StorytellingTools.executeGetInsights Sample.refusing args Sample.one_job tt =
    (Sample.one_job, tt,
     StorytellingTools.failure
       "Failed to get insights: Failed to get execution status: AxiosError: connect ECONNREFUSED 127.0.0.1:5678").
Proof.
  intros args.
  exact (fetch_failure_is_reported Sample.refusing args Sample.one_job tt tt
           {| JS.name := "AxiosError";
              JS.message := "connect ECONNREFUSED 127.0.0.1:5678" |} eq_refl).
Defined.

Lemma executeGetStatus_results_iff_witness :
  let execution := Sample.execution_with true None (Some []) None (Some Sample.story) in
  exists st p c r,
    (StorytellingTools.executeGetStatus (Sample.answering execution) "7"
       Sample.no_tools tt).2
    = StorytellingTools.success (StorytellingTools.WithResults st p c r).
Proof.
  intros execution.
  apply (proj2 (proj1 (executeGetStatus_results_iff (Sample.answering execution) "7"
                         Sample.no_tools tt tt execution eq_refl))).
  split; [reflexivity | split; [reflexivity |]].
  exists (Sample.data_with (Some []) None (Some Sample.story)), Sample.story.
  split; reflexivity.
Defined.

Lemma executeGetStatus_without_analysis_witness :
  StorytellingTools.executeGetStatus (Sample.answering Sample.null_analysis) "7"
    Sample.no_tools tt =
    ({| StorytellingTools.jobs :=
          <["7"%string := N8NClient.statusOf "7" Sample.null_analysis]>
            (StorytellingTools.jobs Sample.no_tools) |}, tt,
     StorytellingTools.failure
       "Failed to get status: Cannot read properties of null (reading 'soundbites')").
Proof.
  exact (executeGetStatus_without_analysis (Sample.answering Sample.null_analysis) "7"
           Sample.no_tools tt tt Sample.null_analysis
           {| Types.resultData :=
                Some {| Types.runData := Some []; Types.error_message := None |};
              Types.analysis := JS.absent JS.null; Types.deliverables := None |}
           JS.null eq_refl eq_refl eq_refl eq_refl eq_refl).
Defined.

(* ===================================================================== *)
(** * Get insights: the gate, unknown types, a missing analysis *)
(* ===================================================================== *)

Section InsightsGate.
Import Types N8NClient StorytellingTools.
Context {Remote : Type} (http : Http Remote).

(** Outside the six types the [switch] names, the [default] branch
    answers, whatever the analysis. *)
Lemma select_insights_other (t : string) (an : JS.maybe StoryAnalysis) :
  t ∉ ["people"; "places"; "purpose"; "plot"; "soundbites"; "transformation"]%string ->
  select_insights t an = inr (OfAnalysis an).
Proof.
  intros Hout. unfold select_insights.
  repeat match goal with
         | |- context [String.eqb t ?k] =>
             destruct (String.eqb_spec t k) as [->|_];
             [exfalso; apply Hout; repeat (first [apply list_elem_of_here
                                                 | apply list_elem_of_further]) |]
         end.
  reflexivity.
Qed.

(** X5. Once the engine has answered, get-insights refuses with
    'Analysis not completed yet or no results available' exactly when
    the execution is not finished, or is stopped, or carries no data;
    a stop timestamp wins over the finished flag. *)
Theorem executeGetInsights_gate
    (args : Args.GetInsights) (this : Tools) (w w' : Remote) (execution : Execution) :
  get_execution http w (Args.jobId args) = (w', inr execution) ->
  executeGetInsights http args this w =
    (this, w', failure "Analysis not completed yet or no results available") <->
  ~ (finished execution = true /\ JS.truthy (stoppedAt execution) = false /\
     data execution <> None).
Proof.
  intros Hget. unfold executeGetInsights, getExecutionStatus. rewrite Hget.
  unfold statusOf, mapN8NStatus. cbn.
  destruct (JS.truthy (stoppedAt execution)), (finished execution); cbn;
    try (split; [intros _ (H1 & H2 & _); discriminate | reflexivity]).
  destruct (data execution) as [d|]; cbn.
  - split; [|intros H; exfalso; apply H; repeat split; discriminate].
    destruct (select_insights _ _) as [error|insights]; intros H; discriminate H.
  - split; [intros _ (_ & _ & H); now apply H | reflexivity].
Qed.

(** X6. For a finished, not stopped execution with data, any insight
    type other than the six the [switch] names (a misspelt or
    differently capitalised one as well as 'all') is answered with the
    whole analysis, never with an error. *)
Theorem executeGetInsights_other_type
    (args : Args.GetInsights) (this : Tools) (w w' : Remote)
    (execution : Execution) (d : ExecutionData) :
  get_execution http w (Args.jobId args) = (w', inr execution) ->
  finished execution = true ->
  JS.truthy (stoppedAt execution) = false ->
  data execution = Some d ->
  default "all"%string (Args.insightType args)
    ∉ ["people"; "places"; "purpose"; "plot"; "soundbites"; "transformation"]%string ->
  executeGetInsights http args this w = (this, w', success (OfAnalysis (analysis d))).
Proof.
  intros Hget Hf Hs Hd Hout.
  rewrite (executeGetInsights_completed http args this w w' execution d Hget Hf Hs Hd).
  now rewrite select_insights_other.
Qed.

(** X7. For a finished, not stopped execution whose data carries no
    analysis ([analysis] missing, or [null]), each of the six named
    insight types fails: the read of the slice throws on the missing
    analysis and the tool answers [{success: false}] with the runtime's
    message, which names [undefined] or [null] as the case may be, and
    the property read ('transformation' stumbles on [plot]). *)
Theorem executeGetInsights_without_analysis
    (args : Args.GetInsights) (this : Tools) (w w' : Remote)
    (execution : Execution) (d : ExecutionData) (n : JS.nothing) (t : string) :
  get_execution http w (Args.jobId args) = (w', inr execution) ->
  finished execution = true ->
  JS.truthy (stoppedAt execution) = false ->
  data execution = Some d ->
  analysis d = JS.absent n ->
  Args.insightType args = Some t ->
  t ∈ ["people"; "places"; "purpose"; "plot"; "soundbites"; "transformation"]%string ->
  executeGetInsights http args this w =
    (this, w',
     failure ("Failed to get insights: Cannot read properties of "
                +:+ JS.nothing_name n +:+ " (reading '"
                +:+ (if String.eqb t "transformation" then "plot" else t) +:+ "')")).
Proof.
  intros Hget Hf Hs Hd Ha Ht Hin.
  rewrite (executeGetInsights_completed http args this w w' execution d Hget Hf Hs Hd).
  rewrite Ht, Ha. cbn [default].
  repeat (apply elem_of_cons in Hin as [-> | Hin]; [destruct n; reflexivity|]).
  inversion Hin.
Qed.

End InsightsGate.

Lemma executeGetInsights_gate_witness :
  let execution :=
    Sample.execution_with true (Some "2024-05-01T10:00:00.000Z"%string)
      (Some []) None (Some Sample.story) in
  let args := {| StorytellingTools.Args.jobId := "7";
                 StorytellingTools.Args.insightType := Some "plot"%string |} in
  StorytellingTools.executeGetInsights (Sample.answering execution) args
    Sample.no_tools tt =
    (Sample.no_tools, tt,
     StorytellingTools.failure "Analysis not completed yet or no results available").
Proof.
  intros execution args.
  apply (proj2 (executeGetInsights_gate (Sample.answering execution) args
                  Sample.no_tools tt tt execution eq_refl)).
  intros (_ & Hstopped & _). discriminate Hstopped.
Defined.

Lemma executeGetInsights_other_type_witness :
  let execution := Sample.execution_with true None (Some []) None (Some Sample.story) in
  let args := {| StorytellingTools.Args.jobId := "7";
                 StorytellingTools.Args.insightType := Some "People"%string |} in
  StorytellingTools.executeGetInsights (Sample.answering execution) args
    Sample.no_tools tt =
    (Sample.no_tools, tt,
     StorytellingTools.success (StorytellingTools.OfAnalysis (JS.present Sample.story))).
Proof.
  intros execution args.
  apply (executeGetInsights_other_type (Sample.answering execution) args
           Sample.no_tools tt tt execution
           (Sample.data_with (Some []) None (Some Sample.story))
           eq_refl eq_refl eq_refl eq_refl).
  vm_compute. intros H. repeat (apply elem_of_cons in H as [H|H]; [discriminate H|]).
  inversion H.
Defined.

Lemma executeGetInsights_without_analysis_witness :
  let args := {| StorytellingTools.Args.jobId := "7";
                 StorytellingTools.Args.insightType := Some "transformation"%string |} in
  StorytellingTools.executeGetInsights (Sample.answering Sample.null_analysis) args
    Sample.no_tools tt =
    (Sample.no_tools, tt,
     StorytellingTools.failure
       "Failed to get insights: Cannot read properties of null (reading 'plot')").
Proof.
  intros args.
  apply (executeGetInsights_without_analysis (Sample.answering Sample.null_analysis) args
           Sample.no_tools tt tt Sample.null_analysis
           {| Types.resultData :=
                Some {| Types.runData := Some []; Types.error_message := None |};
              Types.analysis := JS.absent JS.null; Types.deliverables := None |}
           JS.null "transformation"
           eq_refl eq_refl eq_refl eq_refl eq_refl eq_refl).
  repeat (first [apply list_elem_of_here | apply list_elem_of_further]).
Defined.

(* ===================================================================== *)
(** * Uploads: outcomes, order, and the tool's answers *)
(* ===================================================================== *)

Section UploadOutcomes.
Import Types N8NClient.
Context {Remote : Type} (http : Http Remote).

(** A batch that went through only added paths, one per file. *)
Lemma uploadFiles_from_extends (files : list MulterFile) :
  forall (acc paths : list string) (w w' : Remote),
    uploadFiles_from http acc files w = (w', inr paths) ->
    exists new, paths = acc ++ new /\ length new = length files.
Proof.
  induction files as [|file files IH]; intros acc paths w w'; cbn.
  - intros [= _ ->]. exists []. now rewrite app_nil_r.
  - destruct (post_upload_file http w file) as [w1 [error|filepath]];
      [discriminate|].
    intros H. apply IH in H as (new & -> & Hlen).
    exists (filepath :: new). rewrite <- app_assoc. cbn. now rewrite Hlen.
Qed.

(** A batch that went through went through on each of its prefixes. *)
Lemma uploadFiles_from_app_inv (done : list MulterFile) :
  forall (rest : list MulterFile) (acc paths : list string) (w w' : Remote),
    uploadFiles_from http acc (done ++ rest) w = (w', inr paths) ->
    exists w1 p1,
      uploadFiles_from http acc done w = (w1, inr p1) /\
      uploadFiles_from http p1 rest w1 = (w', inr paths).
Proof.
  induction done as [|file done IH]; intros rest acc paths w w'; cbn.
  - intros H. now exists w, acc.
  - destruct (post_upload_file http w file) as [w1 [error|filepath]];
      [discriminate|]. apply IH.
Qed.

(** X8. [uploadFiles] has two outcomes and no third: either every file
    went through and there is one path per file, or it stopped at the
    first file whose upload threw, with the paths collected so far
    dropped, that file named in the error, and the remote side left as
    that request left it, so that no later file was sent. *)
Theorem uploadFiles_outcome (files : list MulterFile) (w : Remote) :
  (exists w' paths,
     uploadFiles http files w = (w', inr paths) /\ length paths = length files) \/
  (exists i file w1 w2 paths error,
     files !! i = Some file /\
     uploadFiles http (take i files) w = (w1, inr paths) /\
     length paths = i /\
     post_upload_file http w1 file = (w2, inl error) /\
     uploadFiles http files w =
       (w2, inl (JS.new_Error ("Failed to upload file " +:+ originalname file
                                 +:+ ": " +:+ JS.toString error)))).
Proof.
  unfold uploadFiles.
  destruct (uploadFiles_from_outcome http files [] w)
    as [(w' & paths & H) | (i & file & w1 & w2 & paths & error & Hi & Hb & Hf & Hr)].
  - left. exists w', paths. split; [assumption|].
    apply uploadFiles_from_length in H. cbn in H. lia.
  - right. exists i, file, w1, w2, paths, error. repeat split; try assumption.
    apply uploadFiles_from_length in Hb. cbn in Hb.
    apply lookup_lt_Some in Hi. rewrite length_take in Hb. lia.
Qed.

(** X9. In a batch that went through, the path at position [i] is the
    one the engine answered to the upload of the file at position [i],
    which was sent after the files before it and in the remote state
    they left. *)
Theorem uploadFiles_paths_in_order
    (files : list MulterFile) (w w' : Remote) (paths : list string)
    (i : nat) (file : MulterFile) :
  uploadFiles http files w = (w', inr paths) ->
  files !! i = Some file ->
  exists w1 w2 path,
    uploadFiles http (take i files) w = (w1, inr (take i paths)) /\
    post_upload_file http w1 file = (w2, inr path) /\
    paths !! i = Some path.
Proof.
  unfold uploadFiles. intros Hall Hi.
  rewrite <- (take_drop_middle files i file Hi) in Hall.
  apply uploadFiles_from_app_inv in Hall as (w1 & p1 & Hbefore & Hrest).
  destruct (uploadFiles_from_extends _ _ _ _ _ Hbefore) as (new1 & E1 & Hlen1).
  cbn in E1. subst new1.
  assert (Hp1 : length p1 = i).
  { rewrite Hlen1, length_take. apply lookup_lt_Some in Hi. lia. }
  cbn [uploadFiles_from] in Hrest.
  destruct (post_upload_file http w1 file) as [w2 [error|path]] eqn:Hpost;
    [discriminate|].
  destruct (uploadFiles_from_extends _ _ _ _ _ Hrest) as (new & -> & _).
  exists w1, w2, path. split; [|split; [exact Hpost|]].
  - rewrite <- app_assoc, take_app_length' by lia. exact Hbefore.
  - rewrite <- app_assoc, lookup_app_r by lia.
    now replace (i - length p1)%nat with 0%nat by lia.
Qed.

End UploadOutcomes.

Lemma uploadFiles_paths_in_order_witness :
  exists w1 w2 path,
    N8NClient.uploadFiles Sample.storing
      (take 1 [Sample.multer "a.wav"; Sample.multer "c.wav"]) 0%nat
      = (w1, inr (take 1 ["/files/a.wav"; "/files/c.wav"]%string)) /\
    N8NClient.post_upload_file Sample.storing w1 (Sample.multer "c.wav") = (w2, inr path) /\
    ["/files/a.wav"; "/files/c.wav"]%string !! 1%nat = Some path.
Proof.
  exact (uploadFiles_paths_in_order Sample.storing
           [Sample.multer "a.wav"; Sample.multer "c.wav"] 0%nat 2%nat
           ["/files/a.wav"; "/files/c.wav"]%string 1 (Sample.multer "c.wav")
           eq_refl eq_refl).
Defined.

Section UploadToolAnswers.
Import Types N8NClient StorytellingTools.
Context {Remote : Type} (http : Http Remote).
Context (Buffer_from_base64 : string -> list Byte.byte).




End UploadToolAnswers.



(* ===================================================================== *)
(** * Start analysis: the request and the registered job *)
(* ===================================================================== *)

Section StartAnalysisRequest.
Import Types N8NClient StorytellingTools.

(** X12. The [files] constant, and with it every request that is
    built, holds one MediaFile per URL, at the URL's position: its
    filepath is the URL, its size 0, its mime type the one inferred from
    the URL, and its name [interview_<position + 1>.<segment>], where
    the segment is what follows the last dot of the URL, and the whole
    URL when it has no dot. *)
Theorem startAnalysis_files_follow_urls (args : Args.StartAnalysis) :
  let built := files_of_urls (Args.fileUrls args) in
  (forall request, request_of args = inr request -> files request = built) /\
  length built = length (Args.fileUrls args) /\
  forall (i : nat) (url : string),
    Args.fileUrls args !! i = Some url ->
    exists seg : string,
      JS.pop (JS.split "." url) = Some seg /\
      built !! i =
        Some {| filename := "interview_" +:+ JS.string_of_nat (i + 1) +:+ "." +:+ seg;
                filepath := url;
                size := JS.num_of_Z 0;
                mimeType := getMimeTypeFromUrl url;
                duration := None |} /\
      (forall stem ext : string,
         url = stem +:+ String "." ext ->
         (forall c, c ∈ list_ascii_of_string ext -> c <> "."%char) ->
         seg = ext) /\
      ((forall c, c ∈ list_ascii_of_string url -> c <> "."%char) -> seg = url).
Proof.
  cbv zeta. split; [apply request_of_files|].
  unfold files_of_urls. split; [apply length_imap|].
  intros i url Hi.
  destruct (JS.pop (JS.split "." url)) as [seg|] eqn:Hseg.
  - exists seg. split; [reflexivity|]. split; [|split].
    + rewrite list_lookup_imap, Hi. cbn. now rewrite Hseg.
    + intros stem ext -> Hext. rewrite (pop_split_app "." stem ext Hext) in Hseg.
      congruence.
    + intros Hflat. unfold JS.pop in Hseg.
      rewrite (split_no_separator "." url Hflat) in Hseg. cbn in Hseg. congruence.
  - exfalso. unfold JS.pop in Hseg. apply last_None in Hseg.
    now apply (split_nonempty "." url).
Qed.

(** X13. The mime type of a URL depends only on the text after its last
    dot, letter case apart: an extension of the table gives the table's
    type in any capitalisation; an extension that is neither in the
    table nor a name inherited from [Object.prototype] gives
    application/octet-stream; and two URLs whose extensions agree up to
    case get the same answer, whatever precedes the dot. *)
Theorem getMimeTypeFromUrl_last_extension (stem ext : string) :
  (forall c, c ∈ list_ascii_of_string ext -> c <> "."%char) ->
  (forall mime, (JS.toLowerCase ext, mime) ∈ mimeMap ->
     getMimeTypeFromUrl (stem +:+ String "." ext) = JS.VString mime) /\
  ((forall mime, (JS.toLowerCase ext, mime) ∉ mimeMap) ->
   JS.toLowerCase ext ∉ JS.Object_prototype ->
     getMimeTypeFromUrl (stem +:+ String "." ext)
     = JS.VString "application/octet-stream") /\
  (forall stem' ext' : string,
     (forall c, c ∈ list_ascii_of_string ext' -> c <> "."%char) ->
     JS.toLowerCase ext' = JS.toLowerCase ext ->
     getMimeTypeFromUrl (stem' +:+ String "." ext')
     = getMimeTypeFromUrl (stem +:+ String "." ext)).
Proof.
  intros Hext.
  pose proof (pop_split_app "." stem ext Hext) as Hpop.
  destruct (getMimeTypeFromUrl_cases _ _ Hpop) as (Hin & Hout & _).
  split; [exact Hin | split; [exact Hout|]].
  intros stem' ext' Hext' Hsame.
  unfold getMimeTypeFromUrl.
  rewrite Hpop, (pop_split_app "." stem' ext' Hext'). cbn. now rewrite Hsame.
Qed.

(** X14. A request that is built is fully populated.  Its language is
    the caller's when that is a non-empty string and "en" otherwise
    (options left out, language left out or empty); each output flag is
    false only when the caller passed [false] for it, and true
    otherwise; its themes are the caller's, in order and by name, each
    with the caller's description or the empty string when there is
    none, and with the caller's priority when that is a non-empty
    string and "medium" otherwise. *)
Theorem request_of_is_populated
    (args : Args.StartAnalysis) (request : StoryAnalysisRequest) :
  request_of args = inr request ->
  (forall o l, Args.outputOptions args = JS.present o ->
               Args.language o = Some l -> l <> ""%string ->
               language (outputOptions request) = Some l) /\
  (Args.outputOptions args = JS.absent JS.undefined \/
   (exists o, Args.outputOptions args = JS.present o /\
              (Args.language o = None \/ Args.language o = Some ""%string)) ->
   language (outputOptions request) = Some "en"%string) /\
  (createSpreadsheet (outputOptions request) = false <->
     exists o, Args.outputOptions args = JS.present o /\
               Args.createSpreadsheet o = Some false) /\
  (createSummary (outputOptions request) = false <->
     exists o, Args.outputOptions args = JS.present o /\
               Args.createSummary o = Some false) /\
  (createVideoClips (outputOptions request) = false <->
     exists o, Args.outputOptions args = JS.present o /\
               Args.createVideoClips o = Some false) /\
  Forall2 (fun (given : Args.Theme) (sent : StoryTheme) =>
             theme_name sent = Args.name given /\
             (forall d, Args.description given = Some d -> description sent = Some d) /\
             (Args.description given = None -> description sent = Some ""%string) /\
             (forall p, Args.priority given = Some p -> p <> ""%string ->
                        priority sent = p) /\
             (Args.priority given = None \/ Args.priority given = Some ""%string ->
              priority sent = "medium"%string))
          (Args.themes args) (themes request).
Proof.
  intros Hrequest.
  assert (Hflag : forall (get : Args.OutputOptions -> option bool) (o : Args.OutputOptions),
            not_false (get o) = false <-> get o = Some false).
  { intros get o. destruct (get o) as [[|]|]; cbn; split; congruence. }
  pose proof (request_of_built args) as Hbuilt. rewrite Hrequest in Hbuilt.
  destruct (Args.outputOptions args) as [o|[|]] eqn:Ho; cbv zeta in Hbuilt;
    [| |discriminate Hbuilt]; injection Hbuilt as ->;
    cbn [outputOptions language createSpreadsheet createSummary createVideoClips themes].
  - split; [|split; [|split; [|split; [|split]]]].
    + intros o' l [= <-] Hl Hne. rewrite Hl. destruct l; [contradiction | reflexivity].
    + intros [H | (o' & [= <-] & [Hl | Hl])]; [discriminate H | |]; now rewrite Hl.
    + rewrite Hflag. split; [intros H; now exists o | now intros (o' & [= <-] & H)].
    + rewrite Hflag. split; [intros H; now exists o | now intros (o' & [= <-] & H)].
    + rewrite Hflag. split; [intros H; now exists o | now intros (o' & [= <-] & H)].
    + clear. induction (Args.themes args) as [|theme rest IH]; constructor; [|exact IH].
      cbn. split; [reflexivity|]. split; [|split; [|split]].
      * intros d ->. now rewrite or_string_empty.
      * now intros ->.
      * intros p -> Hp. destruct p; [contradiction | reflexivity].
      * intros [-> | ->]; reflexivity.
  - split; [|split; [|split; [|split; [|split]]]].
    + intros o' l H. discriminate H.
    + reflexivity.
    + split; [discriminate | intros (o' & H & _); discriminate H].
    + split; [discriminate | intros (o' & H & _); discriminate H].
    + split; [discriminate | intros (o' & H & _); discriminate H].
    + clear. induction (Args.themes args) as [|theme rest IH]; constructor; [|exact IH].
      cbn. split; [reflexivity|]. split; [|split; [|split]].
      * intros d ->. now rewrite or_string_empty.
      * now intros ->.
      * intros p -> Hp. destruct p; [contradiction | reflexivity].
      * intros [-> | ->]; reflexivity.
Qed.

End StartAnalysisRequest.

Lemma getMimeTypeFromUrl_last_extension_witness :
  StorytellingTools.getMimeTypeFromUrl ("https://host.example/in.2024/Clip" +:+ ".MoV")
  = JS.VString "video/quicktime".
Proof.
  apply (proj1 (getMimeTypeFromUrl_last_extension
                  "https://host.example/in.2024/Clip" "MoV"
                  ltac:(intros c Hc; vm_compute in Hc;
                        repeat (apply elem_of_cons in Hc as [-> | Hc]; [discriminate|]);
                        inversion Hc))).
  vm_compute. repeat (first [apply list_elem_of_here | apply list_elem_of_further]).
Defined.

Section StartAnalysisJob.
Import Types N8NClient StorytellingTools.
Context {Remote : Type} (http : Http Remote).

(** The entry [executeStartAnalysis] writes for a new job. *)
Lemma executeStartAnalysis_started
    (args : Args.StartAnalysis) (this : Tools) (w w' : Remote)
    (request : StoryAnalysisRequest) (executionId : string) :
  request_of args = inr request ->
  post_storytelling_analysis http w request = (w', inr executionId) ->
  executeStartAnalysis http args this w =
    ({| jobs :=
          <[executionId :=
              {| jobId := executionId; status := pending;
                 progress := JS.num_of_Z 0;
                 currentStep := JS.VString "Initializing analysis...";
                 results := None; status_error := None |}]> (jobs this) |},
     w',
     success {| started_jobId := executionId;
                started_message := "Storytelling analysis started successfully";
                estimatedDuration := "10-30 minutes depending on file sizes";
                started_themes := map Args.name (Args.themes args);
                fileCount := length (Args.fileUrls args) |}).
Proof.
  intros Hrequest Hpost.
  rewrite (executeStartAnalysis_posts http args this w request Hrequest).
  now rewrite Hpost.
Qed.


(** X16. Start, then poll: after a request was built and the workflow
    started under an id, the first get-status the engine answers for
    that id replaces the [pending] entry of the cache by the polled
    status, which is never [pending]. *)
Theorem start_then_poll
    (args : Args.StartAnalysis) (this : Tools) (w w1 w2 : Remote)
    (request : StoryAnalysisRequest) (executionId : string) (execution : Execution) :
  request_of args = inr request ->
  post_storytelling_analysis http w request = (w1, inr executionId) ->
  get_execution http w1 executionId = (w2, inr execution) ->
  let started := executeStartAnalysis http args this w in
  let polled := executeGetStatus http executionId started.1.1 started.1.2 in
  (exists st, jobs started.1.1 !! executionId = Some st /\ status st = pending) /\
  polled.1.2 = w2 /\
  jobs polled.1.1 !! executionId = Some (statusOf executionId execution) /\
  status (statusOf executionId execution) <> pending /\
  (forall other : string, other <> executionId ->
     jobs polled.1.1 !! other = jobs this !! other).
Proof.
  intros Hrequest Hpost Hget started polled. subst polled started.
  rewrite (executeStartAnalysis_started args this w w1 request executionId
             Hrequest Hpost).
  cbn [fst snd].
  split; [|split; [|split; [|split]]].
  - eexists. split; [apply lookup_insert_eq | reflexivity].
  - unfold executeGetStatus, getExecutionStatus. rewrite Hget.
    destruct (status (statusOf executionId execution)),
             (results (statusOf executionId execution)) as [res|];
      try reflexivity.
    destruct (generateResultSummary (analysis res)); reflexivity.
  - rewrite (executeGetStatus_cache http executionId _ w1 w2 execution Hget).
    apply lookup_insert_eq.
  - unfold statusOf, mapN8NStatus. cbn.
    destruct (JS.truthy (stoppedAt execution)), (finished execution); discriminate.
  - intros other Hne.
    rewrite (executeGetStatus_cache http executionId _ w1 w2 execution Hget).
    cbn [jobs]. rewrite !lookup_insert_ne by congruence. reflexivity.
Qed.

End StartAnalysisJob.


Lemma start_then_poll_witness :
  let execution :=
    Sample.execution_with false None (Some ["Process Input Files"%string]) None None in
  let started :=
    StorytellingTools.executeStartAnalysis (Sample.answering execution)
      (Sample.family_args ["a.mp4"%string]) Sample.no_tools tt in
  let polled :=
    StorytellingTools.executeGetStatus (Sample.answering execution) "42"
      started.1.1 started.1.2 in
  (exists st, StorytellingTools.jobs started.1.1 !! "42"%string = Some st /\
              Types.status st = Types.pending) /\
  polled.1.2 = tt /\
  StorytellingTools.jobs polled.1.1 !! "42"%string
    = Some (N8NClient.statusOf "42" execution) /\
  Types.status (N8NClient.statusOf "42" execution) <> Types.pending /\
  (forall other : string, other <> "42"%string ->
     StorytellingTools.jobs polled.1.1 !! other
     = StorytellingTools.jobs Sample.no_tools !! other).
Proof.
  intros execution.
  exact (start_then_poll (Sample.answering execution)
           (Sample.family_args ["a.mp4"%string]) Sample.no_tools tt tt tt
           _ "42" execution eq_refl eq_refl eq_refl).
Defined.

(* ===================================================================== *)
(** * List jobs *)
(* ===================================================================== *)

Section ListJobs.
Import Types N8NClient StorytellingTools.
Context {Remote : Type} (http : Http Remote).

(** X17. List-jobs reports what the engine lists, not the cache: one
    entry per listed execution, in the engine's order, with the
    execution's id, its progress and its step, and the count of them;
    the status of every entry is [processing], whatever the record's
    finished flag and stop timestamp say (also where get-status would
    answer [failed]); the cache is not touched.  When the request
    throws, the answer is [{success: false}] with the client's message
    inside the tool's. *)
Theorem executeListJobs_reports (this : Tools) (w : Remote) :
  (forall (w' : Remote) (executions : list (string * Execution)),
     get_executions http w = (w', inr executions) ->
     exists listed : list ActiveJob,
       executeListJobs http this w = (this, w', success (listed, length executions)) /\
       length listed = length executions /\
       forall (i : nat) (id : string) (execution : Execution),
         executions !! i = Some (id, execution) ->
         listed !! i =
           Some {| active_jobId := id;
                   active_status := processing;
                   active_progress := calculateProgress execution;
                   active_currentStep := getCurrentStep execution |} /\
         (JS.truthy (stoppedAt execution) = true ->
            status (statusOf id execution) = failed)) /\
  (forall (w' : Remote) (error : JS.Error),
     get_executions http w = (w', inl error) ->
     executeListJobs http this w =
       (this, w',
        failure ("Failed to list jobs: Failed to list executions: "
                   +:+ JS.toString error))).
Proof.
  split.
  - intros w' executions Hget.
    unfold executeListJobs, listActiveExecutions. rewrite Hget.
    eexists. split; [rewrite length_map; reflexivity|].
    split; [now rewrite !length_map|].
    intros i id execution Hi. split.
    + change map with (@fmap list _). rewrite !list_lookup_fmap, Hi. reflexivity.
    + intros Hstop. unfold statusOf, mapN8NStatus. cbn. now rewrite Hstop.
  - intros w' error Hget.
    unfold executeListJobs, listActiveExecutions. now rewrite Hget.
Qed.

End ListJobs.

Lemma executeListJobs_reports_witness :
  let stopped :=
    Sample.execution_with false (Some "2024-05-01T10:00:00.000Z"%string)
      (Some ["Process Input Files"%string]) (Some "disk full"%string) None in
  exists listed : list StorytellingTools.ActiveJob,
    StorytellingTools.executeListJobs (Sample.listing [("9"%string, stopped)])
      Sample.one_job tt = (Sample.one_job, tt, StorytellingTools.success (listed, 1%nat)) /\
    length listed = 1%nat /\
    forall (i : nat) (id : string) (execution : Types.Execution),
      [("9"%string, stopped)] !! i = Some (id, execution) ->
      listed !! i =
        Some {| StorytellingTools.active_jobId := id;
                StorytellingTools.active_status := Types.processing;
                StorytellingTools.active_progress := N8NClient.calculateProgress execution;
                StorytellingTools.active_currentStep := N8NClient.getCurrentStep execution |} /\
      (JS.truthy (Types.stoppedAt execution) = true ->
         Types.status (N8NClient.statusOf id execution) = Types.failed).
Proof.
  intros stopped.
  exact (proj1 (executeListJobs_reports (Sample.listing [("9"%string, stopped)])
                  Sample.one_job tt) tt [("9"%string, stopped)] eq_refl).
Defined.

(* ===================================================================== *)
(** * Progress and label: where they change *)
(* ===================================================================== *)

Section ProgressShape.
Import Types N8NClient.

Lemma num_ltb_tens (i j : nat) :
  (i < j <= 10)%nat ->
  JS.num_ltb (JS.num_of_Z (10 * Z.of_nat i)) (JS.num_of_Z (10 * Z.of_nat j)) = true.
Proof.
  intros H.
  do 11 (destruct i as [|i];
         [do 11 (destruct j as [|j]; [first [lia | vm_compute; reflexivity]|]); lia|]).
  lia.
Qed.

Lemma num_of_Z_tens_inj (i j : nat) :
  (i <= 10)%nat -> (j <= 10)%nat ->
  JS.num_of_Z (10 * Z.of_nat i) = JS.num_of_Z (10 * Z.of_nat j) -> i = j.
Proof.
  intros Hi Hj.
  do 11 (destruct i as [|i];
         [do 11 (destruct j as [|j];
                 [first [reflexivity | intros H; vm_compute in H; discriminate H]|]);
          lia|]).
  lia.
Qed.

(** X18. Progress rises strictly with each completed node up to ten and
    is flat from there: it is 100 exactly when at least ten nodes have
    run, and 0 exactly when none has (or there is no run data); the
    finished flag and the stop timestamp play no part. *)
Theorem calculateProgress_shape :
  (forall e1 e2 : Execution,
     (completedNodeCount e1 < completedNodeCount e2)%nat ->
     (completedNodeCount e1 < 10)%nat ->
     JS.num_ltb (calculateProgress e1) (calculateProgress e2) = true) /\
  (forall e : Execution,
     calculateProgress e = JS.num_of_Z 100 <-> (10 <= completedNodeCount e)%nat) /\
  (forall e : Execution,
     calculateProgress e = JS.num_of_Z 0 <-> completedNodeCount e = 0%nat).
Proof.
  split; [|split].
  - intros e1 e2 Hlt H10. rewrite !calculateProgress_closed, !min_hundred_tens.
    apply num_ltb_tens. lia.
  - intros e. rewrite calculateProgress_closed, min_hundred_tens. split.
    + intros H. change 100 with (10 * Z.of_nat 10) in H.
      apply num_of_Z_tens_inj in H; lia.
    + intros H. now rewrite Nat.min_l by assumption.
  - intros e. rewrite calculateProgress_closed, min_hundred_tens. split.
    + intros H. change 0 with (10 * Z.of_nat 0) in H.
      apply num_of_Z_tens_inj in H; lia.
    + intros ->. reflexivity.
Qed.

(** X19. The label is 'Starting...' exactly when the record has no run
    data; run data with no key at all already gives 'Processing...';
    and with run data the label depends on the last key alone. *)
Theorem getCurrentStep_shape :
  (forall e : Execution,
     getCurrentStep e = JS.VString "Starting..." <-> runData_of e = None) /\
  (forall e : Execution,
     runData_of e = Some [] -> getCurrentStep e = JS.VString "Processing...") /\
  (forall (e1 e2 : Execution) (k1 k2 : list string),
     runData_of e1 = Some k1 -> runData_of e2 = Some k2 ->
     last k1 = last k2 -> getCurrentStep e1 = getCurrentStep e2).
Proof.
  split; [|split].
  - intros e. unfold getCurrentStep.
    destruct (runData_of e) as [keys|]; [|split; reflexivity].
    split; [|discriminate]. cbv zeta.
    generalize (JS.property_key (last keys)). intros k. unfold JS.get.
    destruct (JS.own_property stepMap k) as [v|] eqn:E.
    + apply own_property_Some in E. unfold stepMap in E.
      repeat (apply elem_of_cons in E as [[= -> ->] | E]; [discriminate|]).
      inversion E.
    + destruct (existsb _ _); discriminate.
  - intros e He. unfold getCurrentStep. now rewrite He.
  - intros e1 e2 k1 k2 H1 H2 Hlast. unfold getCurrentStep.
    now rewrite H1, H2, Hlast.
Qed.

End ProgressShape.

Lemma calculateProgress_shape_witness :
  let ran keys := Sample.execution_with true None (Some keys) None None in
  JS.num_ltb
    (N8NClient.calculateProgress (ran (replicate 8 "node"%string)))
    (N8NClient.calculateProgress (ran (replicate 9 "node"%string))) = true.
Proof.
  intros ran.
  apply (proj1 calculateProgress_shape
           (ran (replicate 8 "node"%string)) (ran (replicate 9 "node"%string)));
    vm_compute; lia.
Defined.

Lemma getCurrentStep_shape_witness :
  let ran keys := Sample.execution_with false None (Some keys) None None in
  N8NClient.getCurrentStep (ran ["Extract Soundbite Clips"%string]) =
  N8NClient.getCurrentStep
    (ran ["Upload Interviews Webhook"; "4P Story Analysis";
          "Extract Soundbite Clips"]%string).
Proof.
  intros ran.
  exact (proj2 (proj2 getCurrentStep_shape)
           (ran ["Extract Soundbite Clips"%string])
           (ran ["Upload Interviews Webhook"; "4P Story Analysis";
                 "Extract Soundbite Clips"]%string)
           ["Extract Soundbite Clips"%string]
           ["Upload Interviews Webhook"; "4P Story Analysis";
            "Extract Soundbite Clips"]%string
           eq_refl eq_refl eq_refl).
Defined.

(* ===================================================================== *)
(** * Insights and status together *)
(* ===================================================================== *)

Section InsightsAndStatus.
Import Types N8NClient StorytellingTools.
Context {Remote : Type} (http : Http Remote).

(** X20. Of soundbites whose emotionalImpact is a double, the
    emotional highpoints are exactly those whose impact is [+Infinity]
    or has a value above 7: an impact of exactly 7, a negative one or
    NaN is never kept. *)
Theorem emotionalHighpoints_by_value
    (a : StoryAnalysis) (bites : list Soundbite) :
  soundbites a = Some bites ->
  Forall (fun s => Binary64.valid (emotionalImpact s)) bites ->
  exists (insights : TransformationInsights) (kept : list Soundbite),
    extractTransformationInsights (JS.present a) = inr insights /\
    emotionalHighpoints insights = Some kept /\
    forall s : Soundbite,
      s ∈ kept <->
      s ∈ bites /\
      (emotionalImpact s = S754_infinity false \/
       exists q, JS.num_to_Q (emotionalImpact s) = Some q /\ (7 < q)%Q).
Proof.
  intros Hbites Hvalid. cbn. rewrite Hbites. cbn. eexists. eexists.
  split; [reflexivity|]. split; [reflexivity|].
  intros s.
  rewrite (selected_elem_of _ _ _
             (filter_selected _ (fun s => exceeds 7 (emotionalImpact s)) bites
                (fun x => conj (fun H => H) (fun H => H)))).
  split.
  - intros [Hin Hex]. split; [assumption|].
    apply exceeds_seven_spec; [|assumption].
    rewrite Forall_forall in Hvalid. now apply Hvalid.
  - intros [Hin Hval]. split; [assumption|].
    apply exceeds_seven_spec; [|assumption].
    rewrite Forall_forall in Hvalid. now apply Hvalid.
Qed.

(** X21. What get-status shows is what get-insights returns: if a poll
    is answered with results, then a get-insights for 'all' (or with the
    type left out) that the engine answers with the same record returns
    the very analysis of those results. *)
Theorem insights_agree_with_status
    (args : Args.GetInsights) (this this' : Tools) (w w1 w2 w3 : Remote)
    (execution : Execution)
    (st : Status) (p : JS.number) (c : JS.value) (r : StatusResults) :
  get_execution http w (Args.jobId args) = (w1, inr execution) ->
  get_execution http w2 (Args.jobId args) = (w3, inr execution) ->
  default "all"%string (Args.insightType args) = "all"%string ->
  (executeGetStatus http (Args.jobId args) this w).2 = success (WithResults st p c r) ->
  executeGetInsights http args this' w2 =
    (this', w3, success (OfAnalysis (result_analysis r))).
Proof.
  intros Hget1 Hget2 Hall Hstatus.
  unfold executeGetStatus, getExecutionStatus in Hstatus. rewrite Hget1 in Hstatus.
  unfold executeGetInsights, getExecutionStatus. rewrite Hget2, Hall.
  unfold statusOf, mapN8NStatus in *. cbn in *.
  destruct (JS.truthy (stoppedAt execution)), (finished execution); cbn in *;
    try discriminate.
  destruct (data execution) as [d|]; [|discriminate].
  destruct (analysis d) as [a|n]; cbn in *; [|discriminate].
  injection Hstatus as <- <- <- <-. reflexivity.
Qed.

End InsightsAndStatus.

Lemma emotionalHighpoints_by_value_witness :
  exists (insights : StorytellingTools.TransformationInsights)
         (kept : list Types.Soundbite),
    StorytellingTools.extractTransformationInsights (JS.present Sample.story) = inr insights /\
    StorytellingTools.emotionalHighpoints insights = Some kept /\
    forall s : Types.Soundbite,
      s ∈ kept <->
      s ∈ [Sample.bite "I had to let go" 9; Sample.bite "We moved" 7] /\
      (Types.emotionalImpact s = S754_infinity false \/
       exists q, JS.num_to_Q (Types.emotionalImpact s) = Some q /\ (7 < q)%Q).
Proof.
  apply (emotionalHighpoints_by_value Sample.story
           [Sample.bite "I had to let go" 9; Sample.bite "We moved" 7] eq_refl).
  repeat constructor.
Defined.

Lemma insights_agree_with_status_witness :
  let execution := Sample.execution_with true None (Some []) None (Some Sample.story) in
  let args := {| StorytellingTools.Args.jobId := "7";
                 StorytellingTools.Args.insightType := None |} in
  StorytellingTools.executeGetInsights (Sample.answering execution) args
    Sample.one_job tt =
    (Sample.one_job, tt,
     StorytellingTools.success (StorytellingTools.OfAnalysis (JS.present Sample.story))).
Proof.
  intros execution args.
  exact (insights_agree_with_status (Sample.answering execution) args
           Sample.no_tools Sample.one_job tt tt tt tt execution
           Types.completed (N8NClient.calculateProgress execution)
           (N8NClient.getCurrentStep execution)
           {| StorytellingTools.result_analysis := JS.present Sample.story;
              StorytellingTools.result_deliverables := None;
              StorytellingTools.summary :=
                "Analysis completed with 2 soundbites identified across 1 key characters. The story explores themes of transformation through 0 core purposes across 0 significant locations." |}
           eq_refl eq_refl eq_refl eq_refl).
Defined.

Lemma startAnalysis_files_follow_urls_witness :
  exists seg : string,
    JS.pop (JS.split "." "talk.one.WAV") = Some seg /\
    StorytellingTools.files_of_urls ["a.mp4"; "talk.one.WAV"]%string !! 1%nat =
      Some {| Types.filename := "interview_" +:+ JS.string_of_nat (1 + 1) +:+ "." +:+ seg;
              Types.filepath := "talk.one.WAV";
              Types.size := JS.num_of_Z 0;
              Types.mimeType := StorytellingTools.getMimeTypeFromUrl "talk.one.WAV";
              Types.duration := None |} /\
    (forall stem ext : string,
       "talk.one.WAV"%string = stem +:+ String "." ext ->
       (forall c, c ∈ list_ascii_of_string ext -> c <> "."%char) ->
       seg = ext) /\
    ((forall c, c ∈ list_ascii_of_string "talk.one.WAV" -> c <> "."%char) ->
     seg = "talk.one.WAV"%string).
Proof.
  exact (proj2 (proj2 (startAnalysis_files_follow_urls
                         (Sample.family_args ["a.mp4"; "talk.one.WAV"]%string)))
               1%nat "talk.one.WAV"%string eq_refl).
Defined.

Lemma request_of_is_populated_witness :
  let args :=
    {| StorytellingTools.Args.themes :=
         [ {| StorytellingTools.Args.name := "Family";
              StorytellingTools.Args.description := None;
              StorytellingTools.Args.priority := Some ""%string |} ];
       StorytellingTools.Args.outputOptions :=
         JS.present {| StorytellingTools.Args.createSpreadsheet := None;
                       StorytellingTools.Args.createSummary := Some false;
                       StorytellingTools.Args.createVideoClips := Some true;
                       StorytellingTools.Args.language := Some ""%string |};
       StorytellingTools.Args.fileUrls := [] |} in
  exists request,
    StorytellingTools.request_of args = inr request /\
    Types.language (Types.outputOptions request) = Some "en"%string /\
    Types.createSummary (Types.outputOptions request) = false /\
    Types.themes request =
      [ {| Types.theme_name := "Family"; Types.description := Some ""%string;
           Types.priority := "medium" |} ].
Proof.
  intros args. eexists. split; [reflexivity|].
  pose proof (request_of_is_populated args _ eq_refl) as (_ & Hen & _ & Hsummary & _ & _).
  split; [|split; [|reflexivity]].
  - apply Hen. right. eexists. split; [reflexivity|]. now right.
  - apply Hsummary. eexists. split; reflexivity.
Defined.
